(** * The electricity dashboard of [app.py], embedded in Rocq

    The program reads a wide table (one column per year), melts it into a
    long table, averages the long table per (Country, Region, Features) over
    the selected years and serves four chart datasets from two Dash
    callbacks.  Data frames are lists of records in row order; a cell of
    pandas' nullable [string] dtype is an [option string] ([None] is [<NA>]);
    a [float64] cell is a primitive binary64 float ([nan] is the missing
    value); the module-level variables written through [global] are the
    fields of [Globals], threaded explicitly through the callbacks.  A figure
    made by plotly express is represented by the data frame handed to it. *)

From Corelib Require Import PrimFloat.
From Stdlib Require Import List ZArith Bool Ascii String Lia.
From Stdlib Require Import DecimalString DecimalPos Sorted.
Import ListNotations.

Open Scope string_scope.
Open Scope Z_scope.

(** ** Python values *)

Module Py.

(** Text is a string of bytes (UTF-8).  [is_ascii] holds of the text whose
    bytes are its characters. *)
Definition is_ascii (s : string) : bool :=
  forallb (fun c => (nat_of_ascii c <? 128)%nat) (list_ascii_of_string s).

(** [str.title()], on ASCII text: a letter that follows a cased character is
    lowered, any other letter is raised; characters outside [A-Za-z] are
    uncased and stay as they are.  This is Python's function on the text
    that [is_ascii] accepts; Python also cases letters outside ASCII, which
    this function leaves alone, so what is stated of a title-cased string is
    stated of ASCII text. *)
Definition is_upper (c : ascii) : bool :=
  ((65 <=? nat_of_ascii c) && (nat_of_ascii c <=? 90))%nat.

Definition is_lower (c : ascii) : bool :=
  ((97 <=? nat_of_ascii c) && (nat_of_ascii c <=? 122))%nat.

Definition is_cased (c : ascii) : bool := is_upper c || is_lower c.

Definition upper (c : ascii) : ascii :=
  if is_lower c then ascii_of_nat (nat_of_ascii c - 32) else c.

Definition lower (c : ascii) : ascii :=
  if is_upper c then ascii_of_nat (nat_of_ascii c + 32) else c.

Fixpoint title_from (previous_is_cased : bool) (s : string) : string :=
  match s with
  | EmptyString => EmptyString
  | String c rest =>
      String (if previous_is_cased then lower c else upper c)
             (title_from (is_cased c) rest)
  end.

Definition title (s : string) : string := title_from false s.

(** [str.strip()]: white space is dropped at both ends.  The white space
    known here is that of ASCII; Python strips further characters of
    Unicode (a no-break space, say), which stay in place here. *)
Definition is_space (c : ascii) : bool :=
  let n := nat_of_ascii c in
  ((9 <=? n) && (n <=? 13) || (28 <=? n) && (n <=? 32))%nat.

Fixpoint lstrip (s : string) : string :=
  match s with
  | EmptyString => EmptyString
  | String c rest => if is_space c then lstrip rest else s
  end.

Fixpoint rstrip (s : string) : string :=
  match s with
  | EmptyString => EmptyString
  | String c rest =>
      match rstrip rest with
      | EmptyString => if is_space c then EmptyString else String c EmptyString
      | kept => String c kept
      end
  end.

Definition strip (s : string) : string := rstrip (lstrip s).

(** [str(n)] for an [int], as an f-string prints it. *)
Definition str_of_int (n : Z) : string := NilZero.string_of_int (Z.to_int n).

(** [list(range(lo, hi))]. *)
Definition range (lo hi : Z) : list Z :=
  map (fun i => lo + Z.of_nat i) (seq 0 (Z.to_nat (hi - lo))).

(** Exceptions the callbacks can meet, and computations that may raise. *)
Inductive exn : Type :=
| KeyError (key : string)
| IndexError
| AttributeError (name : string)
| ValueError (message : string).

Inductive result (A : Type) : Type :=
| Ok (a : A)
| Raise (e : exn).
Arguments Ok {A} a.
Arguments Raise {A} e.

Definition bind {A B} (m : result A) (k : A -> result B) : result B :=
  match m with
  | Ok a => k a
  | Raise e => Raise e
  end.

(** [try: body except: handler] with a bare [except]. *)
Definition try_except {A} (body handler : result A) : result A :=
  match body with
  | Ok a => Ok a
  | Raise _ => handler
  end.

End Py.

Notation "x <- m ;; k" := (Py.bind m (fun x => k))
  (at level 61, m at next level, right associativity).

(** ** The fragment of pandas the program uses *)

Module Pd.

(** *** Columns *)

Definition notna (v : float) : bool := negb (PrimFloat.is_nan v).

(** Equality of two cells of a [string] column with a Python [str]:
    [<NA>] compares as [<NA>], which a boolean mask reads as [False]. *)
Definition str_eq (cell : option string) (s : string) : bool :=
  match cell with
  | Some c => String.eqb c s
  | None => false
  end.

(** [Series.isin(values)] on a [string] column. *)
Definition isin_str (cell : option string) (values : list string) : bool :=
  existsb (str_eq cell) values.

(** Years after [to_numeric(errors='coerce')]: an integer, or NaN. *)
Definition year_eqb (x y : option Z) : bool :=
  match x, y with
  | Some a, Some b => Z.eqb a b
  | None, None => true
  | _, _ => false
  end.

(** [Series.isin(values)] on the year column; [isin] matches NaN with NaN. *)
Definition isin_year (cell : option Z) (values : list (option Z)) : bool :=
  existsb (year_eqb cell) values.

(** [Series.unique()]: first occurrences, in order of appearance. *)
Fixpoint unique_from {A} (eqb : A -> A -> bool) (seen l : list A) : list A :=
  match l with
  | [] => []
  | x :: rest =>
      if existsb (eqb x) seen then unique_from eqb seen rest
      else x :: unique_from eqb (x :: seen) rest
  end.

Definition unique {A} (eqb : A -> A -> bool) (l : list A) : list A :=
  unique_from eqb [] l.

Definition ostr_eqb (x y : option string) : bool :=
  match x, y with
  | Some a, Some b => String.eqb a b
  | None, None => true
  | _, _ => false
  end.

(** [item in array] for a Python [str] or [None] and the array that
    [unique()] returns on a [string] column: [None] is never found. *)
Definition contains (arr : list (option string)) (item : option string) : bool :=
  match item with
  | Some s => existsb (fun cell => str_eq cell s) arr
  | None => false
  end.

(** [df[mask]] where the mask is a boolean series over the same default
    integer index as the frame: row number i is kept when entry number i
    of the mask is [True].  The program builds every mask from
    [melted_data] and applies it to [melted_data]; for a frame with other
    index labels pandas aligns mask and frame by label, which positions do
    not model. *)
Fixpoint select {A} (rows : list A) (mask : list bool) : list A :=
  match rows, mask with
  | r :: rows', b :: mask' =>
      if b then r :: select rows' mask' else select rows' mask'
  | _, _ => []
  end.

(** [m1 & m2] on two boolean series over the same default integer index,
    entry by entry.  (On series of different lengths, which the program
    never combines, the entries without a partner are taken as [False];
    pandas aligns such series by label.) *)
Fixpoint mask_and (m1 m2 : list bool) : list bool :=
  match m1 with
  | [] => map (fun _ => false) m2
  | a :: m1' =>
      match m2 with
      | [] => false :: mask_and m1' []
      | b :: m2' => (a && b) :: mask_and m1' m2'
      end
  end.

(** [pd.to_numeric(header, errors='coerce')] on a column header, for the
    headers of [plain_header] below: the decimal numeral of an integer
    gives that integer, text that is no number gives NaN ([None]).  pandas
    also reads numbers written otherwise (blank-padded, with a fraction or
    an exponent, [inf]); such headers are outside this function's domain,
    and what is stated of the year of a header is stated of plain
    headers. *)
Definition digit_of (c : ascii) : option Z :=
  let n := nat_of_ascii c in
  if ((48 <=? n) && (n <=? 57))%nat then Some (Z.of_nat (n - 48)) else None.

Fixpoint digits_from (acc : Z) (s : string) : option Z :=
  match s with
  | EmptyString => Some acc
  | String c rest =>
      match digit_of c with
      | Some d => digits_from (10 * acc + d) rest
      | None => None
      end
  end.

Definition unsigned_literal (s : string) : option Z :=
  match s with
  | EmptyString => None
  | _ => digits_from 0 s
  end.

Definition to_numeric_coerce (s : string) : option Z :=
  match s with
  | String "-" rest => option_map Z.opp (unsigned_literal rest)
  | String "+" rest => unsigned_literal rest
  | _ => unsigned_literal s
  end.

(** The headers on which [to_numeric_coerce] is pandas' coercion.  A plain
    header is the numeral of an integer as Python prints it (below 2^53 in
    size, where integers and floats agree), or a text with a character
    that no numeric literal holds: a character other than digits, signs,
    the point, the comma, the underscore, white space and control
    characters, bytes beyond ASCII, and the letters of exponents, of
    [inf], [infinity] and [nan], of hexadecimal and of complex literals. *)
Definition maybe_numeric_char (c : ascii) : bool :=
  let n := nat_of_ascii c in
  ((n <? 33) || (127 <=? n) || ((48 <=? n) && (n <=? 57)))%nat
  || existsb (Ascii.eqb c) (list_ascii_of_string "+-.,_eExXjJiInNfFtTyYaA").

Definition not_a_number (s : string) : bool :=
  existsb (fun c => negb (maybe_numeric_char c)) (list_ascii_of_string s).

Definition integer_numeral (s : string) : bool :=
  match to_numeric_coerce s with
  | Some y => String.eqb (Py.str_of_int y) s && (Z.abs y <? 2 ^ 53)
  | None => false
  end.

Definition plain_header (s : string) : bool :=
  integer_numeral s || not_a_number s.

(** *** Mean of a float column, skipping NaN *)

Fixpoint float_of_nat (n : nat) : float :=
  match n with
  | O => 0%float
  | S k => (float_of_nat k + 1)%float
  end.

(** The group mean of pandas ([group_mean]) adds with compensation
    (Kahan): beside the running sum it carries the rounding error of the
    last addition and takes it off the next value; a compensation that is
    NaN (an infinite value was added) is reset to zero. *)
Definition kahan_add (state : float * float) (val : float) : float * float :=
  let '(sumx, compensation) := state in
  let y := (val - compensation)%float in
  let t := (sumx + y)%float in
  let c := (t - sumx - y)%float in
  (t, if PrimFloat.is_nan c then 0%float else c).

Definition kahan_sum (vs : list float) : float :=
  fst (fold_left kahan_add vs (0%float, 0%float)).

(** [groupby(...)[col].mean()] on one group: the compensated sum of the
    values that are not NaN over their count, NaN when there is none. *)
Definition mean (vs : list float) : float :=
  match filter notna vs with
  | [] => nan
  | present => (kahan_sum present / float_of_nat (List.length present))%float
  end.

(** *** [groupby([k1, k2, k3])[value].mean()] on three [string] keys *)

Definition Key : Type := string * string * string.

Definition key_eqb (a b : Key) : bool :=
  let '(a1, a2, a3) := a in
  let '(b1, b2, b3) := b in
  String.eqb a1 b1 && String.eqb a2 b2 && String.eqb a3 b3.

(** Keys are ordered as Python tuples of [str]. *)
Definition key_compare (a b : Key) : comparison :=
  let '(a1, a2, a3) := a in
  let '(b1, b2, b3) := b in
  match String.compare a1 b1 with
  | Eq => match String.compare a2 b2 with
          | Eq => String.compare a3 b3
          | c => c
          end
  | c => c
  end.

Definition key_leb (a b : Key) : bool :=
  match key_compare a b with
  | Gt => false
  | _ => true
  end.

Fixpoint insert_key (k : Key) (sorted : list Key) : list Key :=
  match sorted with
  | [] => [k]
  | h :: rest => if key_leb k h then k :: sorted else h :: insert_key k rest
  end.

Fixpoint sort_keys (ks : list Key) : list Key :=
  match ks with
  | [] => []
  | k :: rest => insert_key k (sort_keys rest)
  end.

Section GroupBy.
Context {R : Type}.
(** The three key cells of a row, or [None] when one of them is [<NA>]
    ([dropna=True], the default, leaves such rows out of every group). *)
Variable key_of : R -> option Key.
Variable value_of : R -> float.

Definition in_group (k : Key) (r : R) : bool :=
  match key_of r with
  | Some k' => key_eqb k' k
  | None => false
  end.

Fixpoint observed_keys (rows : list R) : list Key :=
  match rows with
  | [] => []
  | r :: rest =>
      match key_of r with
      | Some k => k :: observed_keys rest
      | None => observed_keys rest
      end
  end.

(** One entry per observed key, keys sorted ([sort=True], the default),
    each with the mean of its rows' values. *)
Definition groupby_mean (rows : list R) : list (Key * float) :=
  map (fun k => (k, mean (map value_of (filter (in_group k) rows))))
      (sort_keys (unique key_eqb (observed_keys rows))).
End GroupBy.

End Pd.

(** ** The program *)

Module App.

(** *** Data *)

(** A row of [melted_data]. *)
Record Row : Type := mkRow {
  Country : option string;
  Features : option string;
  Region : option string;
  Year : option Z;
  Value : float
}.

(** A row of [grouped_df]: the group's key and the mean of [Value]. *)
Record AggregateRow : Type := mkAgg {
  gCountry : string;
  gRegion : string;
  gFeatures : string;
  gValue : float
}.

(** [data] after normalisation: the three identity columns, row by row, and
    every other column as its header with its cells. *)
Record IdRow : Type := mkId {
  idCountry : option string;
  idFeatures : option string;
  idRegion : option string
}.

Record WideTable : Type := mkWide {
  id_rows : list IdRow;
  value_columns : list (string * list float)
}.

(** [data[col] = data[col].str.strip()] on the three identity columns; a
    [<NA>] cell stays [<NA>].  The value columns are taken as they are after
    [pd.to_numeric(..., errors='coerce')]: floats, NaN where a cell did not
    read as a number. *)
Definition strip_id (id : IdRow) : IdRow :=
  mkId (option_map Py.strip (idCountry id))
       (option_map Py.strip (idFeatures id))
       (option_map Py.strip (idRegion id)).

Definition normalize (data : WideTable) : WideTable :=
  mkWide (map strip_id (id_rows data)) (value_columns data).

(** Every column of a data frame has one cell per row. *)
Definition rectangular (data : WideTable) : bool :=
  forallb (fun col => (List.length (snd col) =? List.length (id_rows data))%nat)
          (value_columns data).

(** The frame that [pd.melt] builds: column after column, each with all
    the rows. *)
Definition melt_column (ids : list IdRow) (col : string * list float)
  : list (IdRow * string * float) :=
  map (fun iv => (fst iv, fst col, snd iv)) (combine ids (snd col)).

Definition melt_frame (data : WideTable) : list (IdRow * string * float) :=
  flat_map (melt_column (id_rows data)) (value_columns data).

(** [pd.melt(data, id_vars=['Country', 'Features', 'Region'],
    var_name='Year', value_name='Value')]: it refuses a frame that has a
    column named like the value column it is to make. *)
Definition has_value_header (data : WideTable) : bool :=
  existsb (String.eqb "Value") (map fst (value_columns data)).

Definition pd_melt (data : WideTable) : Py.result (list (IdRow * string * float)) :=
  if has_value_header data then
    Py.Raise (Py.ValueError
                "value_name (Value) cannot match an element in the DataFrame columns.")
  else Py.Ok (melt_frame data).

(** A row of the melted frame with its [Year] coerced to a number. *)
Definition year_to_numeric (m : IdRow * string * float) : Row :=
  let '(id, header, v) := m in
  mkRow (idCountry id) (idFeatures id) (idRegion id)
        (Pd.to_numeric_coerce header) v.

(** The long table: [melted_data] when [pd.melt] returns. *)
Definition melt (data : WideTable) : list Row :=
  map year_to_numeric (melt_frame data).

(** Lines 90 to 93, with the exception [pd.melt] may raise. *)
Definition melted_data_of (data : WideTable) : Py.result (list Row) :=
  frame <- pd_melt data ;;
  Py.Ok (map year_to_numeric frame).

(** *** Aggregator *)

Definition key_of (r : Row) : option Pd.Key :=
  match Country r, Region r, Features r with
  | Some c, Some g, Some f => Some (c, g, f)
  | _, _, _ => None
  end.

Definition reset_index (entry : Pd.Key * float) : AggregateRow :=
  let '((c, g, f), v) := entry in mkAgg c g f v.

(** [melted[melted['Year'].isin(years)]
      .groupby(['Country', 'Region', 'Features'])['Value'].mean().reset_index()] *)
Definition aggregate (melted : list Row) (years : list (option Z))
  : list AggregateRow :=
  map reset_index
      (Pd.groupby_mean key_of Value
         (filter (fun r => Pd.isin_year (Year r) years) melted)).

(** *** Module-level state *)

Record Globals : Type := mkGlobals {
  melted_data : list Row;
  years_to_average : list (option Z);
  grouped_df : list AggregateRow;
  treemap_value : option string
}.

Definition year_values (melted : list Row) : list (option Z) :=
  Pd.unique Pd.year_eqb (map Year melted).

(** The state the module body leaves behind for a given [data]. *)
Definition startup (data : WideTable) : Globals :=
  let melted := melt data in
  let years := year_values melted in
  mkGlobals melted years (aggregate melted years) (Some "net consumption").

(** The module body from [data] on: it raises what [pd.melt] raises and
    otherwise leaves the state of [startup]. *)
Definition module_body (data : WideTable) : Py.result Globals :=
  melted <- melted_data_of data ;;
  let years := year_values melted in
  Py.Ok (mkGlobals melted years (aggregate melted years) (Some "net consumption")).

(** *** View selectors *)

(** The dropdown's value: a [str], or [None] when it is cleared. *)
Definition feature_is (treemap_val : option string) (r : AggregateRow) : bool :=
  match treemap_val with
  | Some f => String.eqb (gFeatures r) f
  | None => false
  end.

Definition create_treemap (df : list AggregateRow) (treemap_val : option string)
  : list AggregateRow :=
  filter (feature_is treemap_val) df.

(** The three country charts share one filter; the year mask is read from
    the global [melted_data], whatever frame is passed in. *)
Definition country_rows (g : Globals) (df : list Row) (country : string)
                        (features : list string) : list Row :=
  let mask :=
    Pd.mask_and
      (Pd.mask_and (map (fun r => Pd.str_eq (Country r) country) df)
                   (map (fun r => Pd.isin_str (Features r) features) df))
      (map (fun r => Pd.isin_year (Year r) (years_to_average g)) (melted_data g)) in
  filter (fun r => Pd.notna (Value r)) (Pd.select df mask).

Definition create_barchart (g : Globals) (melted : list Row) (country : string) :=
  country_rows g melted country ["imports"; "exports"].

Definition create_dotplot (g : Globals) (df : list Row) (country : string) :=
  country_rows g df country ["net generation"; "net consumption"].

Definition create_piechart (g : Globals) (df : list Row) (country : string) :=
  country_rows g df country ["imports"; "net generation"; "distribution losses"].

(** *** Callbacks *)

(** A graph's [style]: [{'display': 'block'}] or [{'display': 'none'}]. *)
Inductive Display : Type :=
| display_block
| display_none.

(** [ctx.triggered_id]. *)
Inductive TriggeredId : Type :=
| treemap_search
| treemap_choice
| year_slider
| initial_call.

Definition country_vocabulary (g : Globals) : list (option string) :=
  Pd.unique Pd.ostr_eqb (map Country (melted_data g)).

(** [searched.title()]: [searched] is a [str], or [None] while the search
    box is empty. *)
Definition searched_title (searched : option string) : Py.result string :=
  match searched with
  | Some s => Py.Ok (Py.title s)
  | None => Py.Raise (Py.AttributeError "title")
  end.

(** The [if searched in ...: ... else: ...] that closes each branch of
    [update_treemap]. *)
Definition searched_treemap (g : Globals) (searched : option string)
  : Py.result (list AggregateRow) :=
  if Pd.contains (country_vocabulary g) searched then
    wanted <- searched_title searched ;;
    Py.Ok (create_treemap
             (filter (fun r => String.eqb (gCountry r) wanted) (grouped_df g))
             (treemap_value g))
  else
    Py.Ok (create_treemap (grouped_df g) (treemap_value g)).

Definition year_range_text (selected_range : Z * Z) : string :=
  "Selected Year Range: " ++ Py.str_of_int (fst selected_range)
    ++ " - " ++ Py.str_of_int (snd selected_range).

(** What [update_treemap] returns, in the order of its [Output]s:
    main-treemap figure, year-text children, the styles of country-barchart,
    country-dotplot and country-piechart, test-text children. *)
Definition TreemapOutputs : Type :=
  list AggregateRow * string * Display * Display * Display * string.

(** The two assignments that open the last branch of [update_treemap]:
    [years_to_average] becomes the slider's range, bounds included, and
    [grouped_df] the aggregate over it. *)
Definition recompute (g : Globals) (selected_range : Z * Z) : Globals :=
  let years :=
    map Some (Py.range (fst selected_range) (snd selected_range + 1)) in
  mkGlobals (melted_data g) years (aggregate (melted_data g) years)
            (treemap_value g).

Definition update_treemap (triggered_id : TriggeredId) (g : Globals)
    (searched selected_value : option string) (selected_range : Z * Z)
  : Py.result (Globals * TreemapOutputs) :=
  let g' :=
    match triggered_id with
    | treemap_search => g
    | treemap_choice =>
        mkGlobals (melted_data g) (years_to_average g) (grouped_df g) selected_value
    | _ => recompute g selected_range
    end in
  tree <- searched_treemap g' searched ;;
  let hide := display_none in
  Py.Ok (g', (tree, year_range_text selected_range, hide, hide, hide, "")).

(** [clickData] of the treemap, in the shape plotly sends it: a dict that
    may hold a list under ['points'], whose entries are dicts that may hold
    the clicked node's label, a string, under ['label'].  The other entries
    of the dicts are not read and not kept. *)
Record Point : Type := mkPoint { label : option string }.
Record ClickData : Type := mkClick { points : option (list Point) }.

Definition getitem_points (d : ClickData) : Py.result (list Point) :=
  match points d with
  | Some ps => Py.Ok ps
  | None => Py.Raise (Py.KeyError "points")
  end.

Definition getitem_0 (ps : list Point) : Py.result Point :=
  match ps with
  | p :: _ => Py.Ok p
  | [] => Py.Raise Py.IndexError
  end.

Definition getitem_label (p : Point) : Py.result string :=
  match label p with
  | Some s => Py.Ok s
  | None => Py.Raise (Py.KeyError "label")
  end.

(** [selected_data['points'][0]['label']]. *)
Definition clicked_label (d : ClickData) : Py.result string :=
  ps <- getitem_points d ;;
  p <- getitem_0 ps ;;
  getitem_label p.

(** The arrow U+2193, in UTF-8. *)
Definition down_arrow : string :=
  String "226" (String "134" (String "147" EmptyString)).

(** What [update_country_graphs] returns, in the order of its [Output]s:
    test-text children, then style and figure of country-barchart, of
    country-dotplot and of country-piechart. *)
Definition CountryOutputs : Type :=
  string * Display * list Row * Display * list Row * Display * list Row.

Definition update_country_graphs (g : Globals) (selected_data : option ClickData)
  : Py.result CountryOutputs :=
  chosen <-
    match selected_data with
    | Some d =>
        Py.try_except
          (country <- clicked_label d ;;
           if Pd.contains (country_vocabulary g) (Some country) then
             Py.Ok (down_arrow ++ " Statistics for selected country: "
                      ++ country ++ " " ++ down_arrow,
                    display_block, country)
           else
             Py.Ok ("Selected Region: " ++ country, display_none, country))
          (Py.Ok ("", display_none, ""))
    | None => Py.Ok ("", display_none, "")
    end ;;
  let '(text, hide, country) := chosen in
  let bar := create_barchart g (melted_data g) country in
  let dot := create_dotplot g (melted_data g) country in
  let pie := create_piechart g (melted_data g) country in
  Py.Ok (text, hide, bar, hide, dot, hide, pie).

(** *** The page and the two callbacks as its transitions *)

(** The component properties the callbacks write. *)
Record Page : Type := mkPage {
  main_treemap_figure : list AggregateRow;
  year_text : string;
  test_text : string;
  country_barchart_style : Display;
  country_barchart_figure : list Row;
  country_dotplot_style : Display;
  country_dotplot_figure : list Row;
  country_piechart_style : Display;
  country_piechart_figure : list Row
}.

Definition State : Type := Globals * Page.

Inductive Event : Type :=
| inputs_changed (triggered_id : TriggeredId)
    (searched selected_value : option string) (selected_range : Z * Z)
| treemap_clicked (selected_data : option ClickData).

(** Dash writes each returned value to the property its [Output] names and
    leaves every other property alone. *)
Definition step (st : State) (ev : Event) : Py.result State :=
  let '(g, page) := st in
  match ev with
  | inputs_changed triggered_id searched selected_value selected_range =>
      r <- update_treemap triggered_id g searched selected_value selected_range ;;
      let '(g', (tree, years, bar_style, dot_style, pie_style, text)) := r in
      Py.Ok (g',
             mkPage tree years text
                    bar_style (country_barchart_figure page)
                    dot_style (country_dotplot_figure page)
                    pie_style (country_piechart_figure page))
  | treemap_clicked selected_data =>
      r <- update_country_graphs g selected_data ;;
      let '(text, bar_style, bar, dot_style, dot, pie_style, pie) := r in
      Py.Ok (g,
             mkPage (main_treemap_figure page) (year_text page) text
                    bar_style bar dot_style dot pie_style pie)
  end.

(** Running the page through a sequence of events. *)
Fixpoint run (st : State) (events : list Event) : Py.result State :=
  match events with
  | [] => Py.Ok st
  | ev :: rest => st' <- step st ev ;; run st' rest
  end.

(** *** Layout *)

(** The options of the search box, built once with the layout:
    [[{'label': category, 'value': category}
      for category in grouped_df['Country'].unique()]]. *)
Record DropdownOption : Type := mkOption {
  option_label : string;
  option_value : string
}.

Definition search_options (g : Globals) : list DropdownOption :=
  map (fun category => mkOption category category)
      (Pd.unique String.eqb (map gCountry (grouped_df g))).

End App.

Open Scope list_scope.

(** ** Vocabulary of the properties *)

Module Props.
Import App.

(** The year lies in the slider's inclusive range. *)
Definition in_range (a b : Z) (y : option Z) : bool :=
  match y with
  | Some z => (a <=? z) && (z <=? b)
  | None => false
  end.

(** The row belongs to the (Country, Region, Features) triple. *)
Definition has_triple (c g f : string) (r : Row) : Prop :=
  Country r = Some c /\ Region r = Some g /\ Features r = Some f.

(** The aggregate holds a row for the triple. *)
Definition listed (c g f : string) (out : list AggregateRow) : Prop :=
  exists a, In a out /\ gCountry a = c /\ gRegion a = g /\ gFeatures a = f.

(** The values a triple's rows carry in the selected years, in table order. *)
Definition values_in_range (a b : Z) (c g f : string) (melted : list Row)
  : list float :=
  map Value
      (filter (Pd.in_group key_of (c, g, f))
              (filter (fun r => in_range a b (Year r)) melted)).

(** The name is one of the countries of the long table. *)
Definition known_country (g : Globals) (name : string) : Prop :=
  In (Some name) (map Country (melted_data g)).

Definition known_region (g : Globals) (name : string) : Prop :=
  In (Some name) (map Region (melted_data g)).

(** Number of value columns whose header reads as a year. *)
Definition year_headers (data : WideTable) : nat :=
  List.length (filter (fun col => match Pd.to_numeric_coerce (fst col) with
                                  | Some _ => true
                                  | None => false
                                  end)
                      (value_columns data)).

(** The state [update_treemap] leaves behind, by trigger. *)
Definition globals_after (triggered_id : TriggeredId) (g : Globals)
    (selected_value : option string) (selected_range : Z * Z) : Globals :=
  match triggered_id with
  | treemap_search => g
  | treemap_choice =>
      mkGlobals (melted_data g) (years_to_average g) (grouped_df g) selected_value
  | _ => recompute g selected_range
  end.

(** The (Country, Region, Features) triples of an aggregate, in its order. *)
Definition triples (out : list AggregateRow) : list Pd.Key :=
  map (fun agg => (gCountry agg, gRegion agg, gFeatures agg)) out.

Definition key_le (x y : Pd.Key) : Prop := Pd.key_leb x y = true.

(** What makes a row of the long table a row of a country chart: the
    country, one of the chart's features, a selected year and a value. *)
Definition chart_row (g : Globals) (country : string) (features : list string)
    (r : Row) : Prop :=
  Country r = Some country /\
  (exists f, In f features /\ Features r = Some f) /\
  Pd.isin_year (Year r) (years_to_average g) = true /\
  Pd.notna (Value r) = true.

(** The same test on row [r] of a frame, with the year taken from row [r']
    of the global long table. *)
Definition chart_pair (g : Globals) (country : string) (features : list string)
    (rr : Row * Row) : bool :=
  Pd.str_eq (Country (fst rr)) country
  && Pd.isin_str (Features (fst rr)) features
  && Pd.isin_year (Year (snd rr)) (years_to_average g)
  && Pd.notna (Value (fst rr)).

(** The country charts of a page are all hidden, or all shown with the
    status text and the three datasets of one known country, as the
    selectors give them in the state [g]. *)
Definition charts_hidden (page : Page) : Prop :=
  country_barchart_style page = display_none /\
  country_dotplot_style page = display_none /\
  country_piechart_style page = display_none.

Definition charts_show (g : Globals) (page : Page) (name : string) : Prop :=
  country_barchart_style page = display_block /\
  country_dotplot_style page = display_block /\
  country_piechart_style page = display_block /\
  known_country g name /\
  test_text page =
    (down_arrow ++ " Statistics for selected country: " ++ name ++ " " ++ down_arrow)%string /\
  country_barchart_figure page = create_barchart g (melted_data g) name /\
  country_dotplot_figure page = create_dotplot g (melted_data g) name /\
  country_piechart_figure page = create_piechart g (melted_data g) name.

Definition charts_consistent (st : State) : Prop :=
  charts_hidden (snd st) \/ exists name, charts_show (fst st) (snd st) name.

(** The order of Python strings, as a relation. *)
Definition str_le (a b : string) : Prop := String.compare a b <> Gt.

(** White space at the ends of a string. *)
Definition starts_with_space (s : string) : bool :=
  match s with
  | EmptyString => false
  | String c _ => Py.is_space c
  end.

Fixpoint ends_with_space (s : string) : bool :=
  match s with
  | EmptyString => false
  | String c EmptyString => Py.is_space c
  | String _ rest => ends_with_space rest
  end.

Definition trimmed (cell : option string) : Prop :=
  match cell with
  | Some s => starts_with_space s = false /\ ends_with_space s = false
  | None => True
  end.

(** The click carries nothing to read a label from: there is no payload, or
    reading [selected_data['points'][0]['label']] raises. *)
Definition malformed (selected_data : option ClickData) : Prop :=
  match selected_data with
  | None => True
  | Some d => exists e, clicked_label d = Py.Raise e
  end.

(** The long-table row made from an identity row, a header and a cell, and
    the rows one value column contributes to the long table. *)
Definition long_row (header : string) (iv : IdRow * float) : Row :=
  mkRow (idCountry (fst iv)) (idFeatures (fst iv)) (idRegion (fst iv))
        (Pd.to_numeric_coerce header) (snd iv).

Definition column_rows (ids : list IdRow) (col : string * list float) : list Row :=
  map (long_row (fst col)) (combine ids (snd col)).

End Props.

(** ** Concrete tables and states *)

Module Scenario.
Import App.

(** A wide table with a gap: the France cell of 2020 did not read as a
    number. *)
Definition gap_table : WideTable :=
  mkWide [mkId (Some "France") (Some "imports") (Some "Europe");
          mkId (Some "Spain") (Some "imports") (Some "Europe")]
         [("2019", [8%float; 7%float]); ("2020", [nan; 9%float])].

(** A wide table read from a CSV written with its index: the first value
    column is headed [Unnamed: 0]. *)
Definition indexed_table : WideTable :=
  mkWide [mkId (Some "France") (Some "imports") (Some "Europe")]
         [("Unnamed: 0", [0%float]); ("2020", [10%float])].

(** The wide table of the France scenario, alone and among other rows and
    columns. *)
Definition france_row : IdRow := mkId (Some "France") (Some "imports") (Some "Europe").

Definition france_table : WideTable :=
  mkWide [france_row] [("2020", [10%float]); ("2021", [20%float])].

Definition europe_table : WideTable :=
  mkWide [mkId (Some "Austria") (Some "imports") (Some "Europe");
          france_row;
          mkId (Some "France") (Some "exports") (Some "Europe")]
         [("2019", [1%float; 2%float; 3%float]);
          ("2020", [4%float; 10%float; nan]);
          ("2021", [nan; 20%float; 6%float])].

(** A wide table two of whose Country cells hold only white space in the
    CSV: stripped, they are the empty string. *)
Definition blank_table : WideTable :=
  normalize
    (mkWide [mkId (Some "  ") (Some "imports ") (Some "Europe");
             mkId (Some " ") (Some " net generation") (Some "Europe")]
            [("2020", [3%float; 5%float])]).

(** A data set with a country whose name is not in title case. *)
Definition bosnia_table : WideTable :=
  mkWide [mkId (Some "Bosnia and Herzegovina") (Some "net consumption") (Some "Europe");
          mkId (Some "France") (Some "net consumption") (Some "Europe")]
         [("2020", [12%float; 440%float])].

(** The page before any click: nothing drawn, the country charts hidden. *)
Definition overview_page : Page :=
  mkPage [] "" "" display_none [] display_none [] display_none [].

(** Click payloads: a well-formed one, and one whose point has no label. *)
Definition click_on (name : string) : ClickData :=
  mkClick (Some [mkPoint (Some name)]).

Definition click_without_label : ClickData := mkClick (Some [mkPoint None]).

End Scenario.

(** ** Lists, keys and groups *)

Section PandasFacts.

Lemma key_eqb_eq (a b : Pd.Key) : Pd.key_eqb a b = true <-> a = b.
Proof.
  destruct a as [[a1 a2] a3], b as [[b1 b2] b3]; cbn.
  rewrite !andb_true_iff, !String.eqb_eq.
  split; [intros [[-> ->] ->]; reflexivity | intros [= -> -> ->]; auto].
Qed.

Lemma key_eqb_refl (a : Pd.Key) : Pd.key_eqb a a = true.
Proof. apply key_eqb_eq; reflexivity. Qed.

Lemma ostr_eqb_eq (x y : option string) : Pd.ostr_eqb x y = true <-> x = y.
Proof.
  destruct x as [a|], y as [b|]; cbn; try (split; congruence).
  rewrite String.eqb_eq; split; congruence.
Qed.

Lemma In_insert_key (k x : Pd.Key) (l : list Pd.Key) :
  In x (Pd.insert_key k l) <-> x = k \/ In x l.
Proof.
  induction l as [|h rest IH]; cbn.
  - intuition.
  - destruct (Pd.key_leb k h); cbn; [|rewrite IH]; intuition.
Qed.

Lemma In_sort_keys (x : Pd.Key) (l : list Pd.Key) :
  In x (Pd.sort_keys l) <-> In x l.
Proof.
  induction l as [|h rest IH]; cbn; [reflexivity|].
  rewrite In_insert_key, IH; intuition.
Qed.

Section Unique.
Context {A : Type} (eqb : A -> A -> bool).
Hypothesis eqb_eq : forall a b, eqb a b = true <-> a = b.

Lemma existsb_eqb_In (x : A) (l : list A) :
  existsb (eqb x) l = true <-> In x l.
Proof.
  rewrite existsb_exists; split.
  - intros (y & Hy & E); apply eqb_eq in E; subst; assumption.
  - intros H; exists x; split; [assumption | apply eqb_eq; reflexivity].
Qed.

Lemma In_unique_from (x : A) (l seen : list A) :
  In x (Pd.unique_from eqb seen l) <-> In x l /\ ~ In x seen.
Proof.
  revert seen; induction l as [|h rest IH]; intros seen; cbn.
  - intuition.
  - destruct (existsb (eqb h) seen) eqn:E.
    + apply existsb_eqb_In in E. rewrite IH.
      split; [intuition | intros [[->|H] N]; [contradiction | auto]].
    + assert (N : ~ In h seen)
        by (intros H; apply existsb_eqb_In in H; congruence).
      cbn; rewrite IH; cbn.
      split.
      * intros [->|[H1 H2]]; [auto | split; [auto | intuition]].
      * intros [[->|H1] H2]; [auto|].
        destruct (eqb h x) eqn:Ehx.
        -- apply eqb_eq in Ehx; auto.
        -- right; split; [assumption|].
           intros [->|H3]; [|contradiction].
           assert (eqb x x = true) by (apply eqb_eq; reflexivity); congruence.
Qed.

Lemma In_unique (x : A) (l : list A) : In x (Pd.unique eqb l) <-> In x l.
Proof. unfold Pd.unique; rewrite In_unique_from; cbn; intuition. Qed.
End Unique.

Section Groups.
Context {R : Type} (key_of : R -> option Pd.Key) (value_of : R -> float).

Lemma In_observed_keys (k : Pd.Key) (rows : list R) :
  In k (Pd.observed_keys key_of rows) <->
  exists r, In r rows /\ key_of r = Some k.
Proof.
  induction rows as [|r rest IH]; cbn.
  - split; [contradiction | intros (? & [] & _)].
  - destruct (key_of r) as [k'|] eqn:E; cbn; rewrite IH; split.
    + intros [->|(r' & H1 & H2)]; [exists r; auto | exists r'; auto].
    + intros (r' & [->|H1] & H2); [left; congruence | right; exists r'; auto].
    + intros (r' & H1 & H2); exists r'; auto.
    + intros (r' & [->|H1] & H2); [congruence | exists r'; auto].
Qed.

(** The groups are the observed keys, each once, with the mean of the
    values of its rows. *)
Lemma In_groupby_mean (k : Pd.Key) (v : float) (rows : list R) :
  In (k, v) (Pd.groupby_mean key_of value_of rows) <->
  (exists r, In r rows /\ key_of r = Some k) /\
  v = Pd.mean (map value_of (filter (Pd.in_group key_of k) rows)).
Proof.
  unfold Pd.groupby_mean; rewrite in_map_iff; split.
  - intros (k' & [= <- <-] & H).
    apply In_sort_keys, (In_unique _ key_eqb_eq), In_observed_keys in H; auto.
  - intros [H ->]; exists k; split; [reflexivity|].
    apply In_sort_keys, (In_unique _ key_eqb_eq), In_observed_keys; assumption.
Qed.
End Groups.

End PandasFacts.


(** ** The aggregator *)

Section AggregatorFacts.
Import App Props.

Lemma In_range (z lo hi : Z) : In z (Py.range lo hi) <-> lo <= z < hi.
Proof.
  unfold Py.range; rewrite in_map_iff; split.
  - intros (i & <- & H); apply in_seq in H; lia.
  - intros H; exists (Z.to_nat (z - lo)); split; [lia | apply in_seq; lia].
Qed.

Lemma isin_year_range (y : option Z) (a b : Z) :
  Pd.isin_year y (map Some (Py.range a (b + 1))) = in_range a b y.
Proof.
  apply eq_true_iff_eq; unfold Pd.isin_year; rewrite existsb_exists.
  destruct y as [z|]; cbn.
  - rewrite andb_true_iff, !Z.leb_le; split.
    + intros (y & Hy & E); apply in_map_iff in Hy as (z' & <- & Hz).
      apply Z.eqb_eq in E; subst; apply In_range in Hz; lia.
    + intros H; exists (Some z); split; [|apply Z.eqb_refl].
      apply in_map, In_range; lia.
  - split; [|discriminate].
    intros (y & Hy & E); apply in_map_iff in Hy as (z' & <- & _); discriminate.
Qed.

Lemma in_group_triple (c g f : string) (r : Row) :
  Pd.in_group key_of (c, g, f) r = true <-> has_triple c g f r.
Proof.
  unfold Pd.in_group, key_of, has_triple.
  destruct (Country r), (Region r), (Features r);
    try (split; [discriminate | intros (? & ? & ?); discriminate]).
  rewrite key_eqb_eq; split; [intros [= -> -> ->]; auto | intros (? & ? & ?); congruence].
Qed.

Lemma key_of_triple (c g f : string) (r : Row) :
  key_of r = Some (c, g, f) <-> has_triple c g f r.
Proof.
  unfold key_of, has_triple.
  destruct (Country r), (Region r), (Features r);
    try (split; [discriminate | intros (? & ? & ?); discriminate]).
  split; [intros [= -> -> ->]; auto | intros (? & ? & ?); congruence].
Qed.

(** The rows of [aggregate]: one for each triple that has a row in the
    selected years, carrying the mean of these rows' values. *)
Lemma In_aggregate (c g f : string) (v : float) (melted : list Row)
      (years : list (option Z)) :
  In (mkAgg c g f v) (aggregate melted years) <->
  (exists r, In r melted /\ Pd.isin_year (Year r) years = true /\ has_triple c g f r) /\
  v = Pd.mean (map Value
                 (filter (Pd.in_group key_of (c, g, f))
                    (filter (fun r => Pd.isin_year (Year r) years) melted))).
Proof.
  unfold aggregate; rewrite in_map_iff; split.
  - intros ([[[c' g'] f'] v'] & [= -> -> -> ->] & H).
    apply In_groupby_mean in H as [(r & Hr & K) ->].
    apply filter_In in Hr as [Hr Hy]; apply key_of_triple in K.
    split; [exists r; auto | reflexivity].
  - intros [(r & Hr & Hy & K) ->].
    exists ((c, g, f), Pd.mean (map Value
                 (filter (Pd.in_group key_of (c, g, f))
                    (filter (fun r => Pd.isin_year (Year r) years) melted)))).
    split; [reflexivity|].
    apply In_groupby_mean; split; [|reflexivity].
    exists r; split; [apply filter_In; auto | apply key_of_triple; assumption].
Qed.

Lemma filter_selected_years (a b : Z) (melted : list Row) :
  filter (fun r => Pd.isin_year (Year r) (map Some (Py.range a (b + 1)))) melted =
  filter (fun r => in_range a b (Year r)) melted.
Proof. apply filter_ext; intros r; apply isin_year_range. Qed.

Lemma In_recompute (g : Globals) (a b : Z) (c r f : string) (v : float) :
  In (mkAgg c r f v) (grouped_df (recompute g (a, b))) <->
  (exists row, In row (melted_data g) /\ has_triple c r f row /\
               in_range a b (Year row) = true) /\
  v = Pd.mean (values_in_range a b c r f (melted_data g)).
Proof.
  unfold recompute, values_in_range; cbn [grouped_df fst snd].
  rewrite In_aggregate, filter_selected_years.
  split; intros [(row & H1 & H2 & H3) ->]; (split; [exists row|reflexivity]).
  - rewrite isin_year_range in H2; auto.
  - rewrite isin_year_range; auto.
Qed.

Lemma mean_all_missing (vs : list float) :
  (forall v, In v vs -> Pd.notna v = false) -> Pd.mean vs = nan.
Proof.
  intros H; unfold Pd.mean.
  replace (filter Pd.notna vs) with (@nil float); [reflexivity|].
  induction vs as [|v rest IH]; cbn; [reflexivity|].
  rewrite (H v) by (left; reflexivity); apply IH; intros; apply H; right; assumption.
Qed.

End AggregatorFacts.

Section AggregatorClaims.
Import App Props.

(** C1, as stated, fails: in the long table of [Scenario.gap_table] the rows
    of (France, Europe, imports) are the one of 2019 and the one of 2020,
    whose Value is missing, so for the range 2020..2020 every row of the
    triple is outside the range or without a value; the recomputed aggregate
    lists the triple all the same, with a missing mean. *)
Lemma C1_missing_value_group_is_listed :
  let g := startup Scenario.gap_table in
  (forall row, In row (melted_data g) ->
               has_triple "France" "Europe" "imports" row ->
               Pd.notna (Value row) = false \/ in_range 2020 2020 (Year row) = false) /\
  listed "France" "Europe" "imports" (grouped_df (recompute g (2020, 2020))) /\
  grouped_df (recompute g (2020, 2020)) =
    [mkAgg "France" "Europe" "imports" nan;
     mkAgg "Spain" "Europe" "imports" 9%float].
Proof.
  cbv zeta.
  assert (E : grouped_df (recompute (startup Scenario.gap_table) (2020, 2020)) =
              [mkAgg "France" "Europe" "imports" nan;
               mkAgg "Spain" "Europe" "imports" 9%float]) by reflexivity.
  split; [|split].
  - intros row [<-|[<-|[<-|[<-|[]]]]] T;
      try (left; reflexivity); try (right; reflexivity).
    destruct T as [T _]; discriminate.
  - rewrite E; exists (mkAgg "France" "Europe" "imports" nan); cbn; auto.
  - exact E.
Qed.

(** C1, amended: for every year range [a, b] the recomputed aggregate lists a
    (Country, Region, Features) triple exactly when some row of the triple
    has its Year in [a, b], so a triple all of whose rows lie outside the
    range does not appear; the row of a listed triple carries the mean of
    the non-missing values of these rows, and that mean is missing (NaN) when
    every one of them has a missing Value. *)
Theorem C1_groups_follow_selected_years (g : Globals) (a b : Z) (c r f : string) :
  (listed c r f (grouped_df (recompute g (a, b))) <->
   exists row, In row (melted_data g) /\ has_triple c r f row /\
               in_range a b (Year row) = true) /\
  (forall agg, In agg (grouped_df (recompute g (a, b))) ->
     gCountry agg = c -> gRegion agg = r -> gFeatures agg = f ->
     gValue agg = Pd.mean (values_in_range a b c r f (melted_data g)) /\
     ((forall row, In row (melted_data g) -> has_triple c r f row ->
                   in_range a b (Year row) = true -> Pd.notna (Value row) = false) ->
      gValue agg = nan)).
Proof.
  split.
  - split.
    + intros ([c' r' f' v] & H & Hc & Hr & Hf); cbn in Hc, Hr, Hf; subst.
      apply In_recompute in H; tauto.
    + intros H.
      exists (mkAgg c r f (Pd.mean (values_in_range a b c r f (melted_data g)))).
      cbn; split; [apply In_recompute|]; auto.
  - intros [c' r' f' v] H Hc Hr Hf; cbn in Hc, Hr, Hf; subst; cbn.
    apply In_recompute in H as [_ ->]; split; [reflexivity|].
    intros M; apply mean_all_missing; intros v Hv.
    unfold values_in_range in Hv.
    apply in_map_iff in Hv as (row & <- & Hrow).
    apply filter_In in Hrow as [Hrow K]; apply filter_In in Hrow as [Hrow Y].
    apply in_group_triple in K; auto.
Qed.

End AggregatorClaims.

(** ** The melter *)

Section MelterFacts.
Import App Props.

Lemma melt_by_columns (data : WideTable) :
  melt data = flat_map (column_rows (id_rows data)) (value_columns data).
Proof.
  unfold melt, melt_frame.
  induction (value_columns data) as [|col cols IH]; cbn; [reflexivity|].
  rewrite map_app, IH; f_equal.
  unfold melt_column, column_rows; rewrite map_map.
  apply map_ext; intros [id v]; reflexivity.
Qed.

Lemma length_column_rows (ids : list IdRow) (col : string * list float) :
  List.length (snd col) = List.length ids ->
  List.length (column_rows ids col) = List.length ids.
Proof.
  intros H; unfold column_rows.
  rewrite length_map, length_combine, H; apply Nat.min_id.
Qed.

Lemma rectangular_column (data : WideTable) (col : string * list float) :
  rectangular data = true -> In col (value_columns data) ->
  List.length (snd col) = List.length (id_rows data).
Proof.
  unfold rectangular; rewrite forallb_forall; intros H Hc.
  apply Nat.eqb_eq, H, Hc.
Qed.

Lemma length_melt (data : WideTable) :
  rectangular data = true ->
  List.length (melt data) =
  (List.length (id_rows data) * List.length (value_columns data))%nat.
Proof.
  intros R; rewrite melt_by_columns.
  assert (H : forall col, In col (value_columns data) ->
                          List.length (snd col) = List.length (id_rows data))
    by (intros; apply rectangular_column; assumption).
  clear R; induction (value_columns data) as [|col cols IH]; cbn; [lia|].
  rewrite length_app, length_column_rows, IH; [lia | |]; intros; apply H; cbn; auto.
Qed.

Lemma In_combine_nth {A B} (l : list A) (l' : list B) (i : nat) (a : A) (d : B) :
  nth_error l i = Some a -> List.length l' = List.length l ->
  In (a, nth i l' d) (combine l l').
Proof.
  revert l' i; induction l as [|x l IH]; intros [|y l'] [|i]; cbn; try discriminate.
  - intros [= ->] _; auto.
  - intros H [= L]; right; apply IH; assumption.
Qed.

Lemma In_melt (data : WideTable) (header : string) (cells : list float)
      (i : nat) (id : IdRow) :
  rectangular data = true ->
  In (header, cells) (value_columns data) ->
  nth_error (id_rows data) i = Some id ->
  In (mkRow (idCountry id) (idFeatures id) (idRegion id)
            (Pd.to_numeric_coerce header) (nth i cells nan))
     (melt data).
Proof.
  intros R Hc Hi; rewrite melt_by_columns; apply in_flat_map.
  exists (header, cells); split; [assumption|].
  unfold column_rows; cbn [fst snd].
  change (mkRow _ _ _ _ _) with (long_row header (id, nth i cells nan)).
  apply in_map, In_combine_nth; [assumption|].
  apply (rectangular_column data (header, cells)); assumption.
Qed.

(** C3, as stated, fails: [Scenario.indexed_table] has one identity row and
    two value columns, of which only [2020] reads as a year; the row made
    from the other column is not dropped but kept, with a missing Year, so
    the long table has two rows and not one. *)
Lemma C3_unparseable_header_row_is_kept :
  rectangular Scenario.indexed_table = true /\
  Pd.to_numeric_coerce "Unnamed: 0" = None /\
  In (mkRow (Some "France") (Some "imports") (Some "Europe") None 0%float)
     (melt Scenario.indexed_table) /\
  List.length (melt Scenario.indexed_table) = 2%nat /\
  (List.length (id_rows Scenario.indexed_table)
   * year_headers Scenario.indexed_table = 1)%nat.
Proof. repeat split; cbn; auto. Qed.

Lemma to_numeric_coerce_cases (c : ascii) (rest : string) :
  Pd.to_numeric_coerce (String c rest) =
  if Ascii.eqb c "-" then option_map Z.opp (Pd.unsigned_literal rest)
  else if Ascii.eqb c "+" then Pd.unsigned_literal rest
  else Pd.unsigned_literal (String c rest).
Proof. destruct c as [[|] [|] [|] [|] [|] [|] [|] [|]]; reflexivity. Qed.

Lemma digit_is_numeric_char (c : ascii) (d : Z) :
  Pd.digit_of c = Some d -> Pd.maybe_numeric_char c = true.
Proof.
  unfold Pd.digit_of, Pd.maybe_numeric_char.
  destruct ((48 <=? nat_of_ascii c) && (nat_of_ascii c <=? 57))%nat; [|discriminate].
  intros _; rewrite orb_true_r; reflexivity.
Qed.

Lemma digits_are_numeric_chars (s : string) (acc v : Z) :
  Pd.digits_from acc s = Some v ->
  forallb Pd.maybe_numeric_char (list_ascii_of_string s) = true.
Proof.
  revert acc; induction s as [|c s IH]; intros acc; cbn; [reflexivity|].
  destruct (Pd.digit_of c) as [d|] eqn:E; [|discriminate].
  intros H; rewrite (digit_is_numeric_char c d E); exact (IH _ H).
Qed.

Lemma unsigned_literal_numeric_chars (s : string) (v : Z) :
  Pd.unsigned_literal s = Some v ->
  forallb Pd.maybe_numeric_char (list_ascii_of_string s) = true.
Proof. destruct s; [discriminate | apply digits_are_numeric_chars]. Qed.

Lemma number_has_numeric_chars (s : string) (y : Z) :
  Pd.to_numeric_coerce s = Some y ->
  forallb Pd.maybe_numeric_char (list_ascii_of_string s) = true.
Proof.
  destruct s as [|c rest]; [discriminate|]; rewrite to_numeric_coerce_cases.
  destruct (Ascii.eqb c "-") eqn:Em; [|destruct (Ascii.eqb c "+") eqn:Ep].
  - apply Ascii.eqb_eq in Em; subst.
    destruct (Pd.unsigned_literal rest) as [v|] eqn:U; [|discriminate].
    intros _; cbn [list_ascii_of_string forallb].
    rewrite (unsigned_literal_numeric_chars rest v U); reflexivity.
  - apply Ascii.eqb_eq in Ep; subst; intros U; cbn [list_ascii_of_string forallb].
    rewrite (unsigned_literal_numeric_chars rest y U); reflexivity.
  - apply unsigned_literal_numeric_chars.
Qed.

(** Text with a character that no numeric literal holds coerces to NaN. *)
Lemma not_a_number_is_nan (s : string) :
  Pd.not_a_number s = true -> Pd.to_numeric_coerce s = None.
Proof.
  unfold Pd.not_a_number; intros H.
  destruct (Pd.to_numeric_coerce s) as [y|] eqn:E; [|reflexivity].
  apply number_has_numeric_chars in E; rewrite forallb_forall in E.
  apply existsb_exists in H as (c & Hc & N); rewrite (E c Hc) in N; discriminate.
Qed.

Lemma melted_data_of_returns (data : WideTable) :
  has_value_header data = false -> melted_data_of data = Py.Ok (melt data).
Proof. intros H; unfold melted_data_of, pd_melt; rewrite H; reflexivity. Qed.

Lemma melted_data_of_raises (data : WideTable) :
  has_value_header data = true -> exists e, melted_data_of data = Py.Raise e.
Proof. intros H; unfold melted_data_of, pd_melt; rewrite H; cbn; eauto. Qed.

Lemma module_body_returns (data : WideTable) :
  has_value_header data = false -> module_body data = Py.Ok (startup data).
Proof.
  intros H; unfold module_body; rewrite (melted_data_of_returns data H); reflexivity.
Qed.

(** C3, amended: for every normalized wide table with N identity rows and Y
    value columns, none of them headed [Value] (on such a table [pd.melt]
    raises), the melt returns a long table with one row per (identity row,
    column), exactly N * Y rows; the row of a cell under a plain header
    carries the year the header reads as; a column whose header is no
    number loses no row and raises nothing: each of its cells is kept, with
    a missing Year. *)
Theorem C3_melt_has_one_row_per_cell (data : WideTable) :
  rectangular data = true ->
  has_value_header data = false ->
  melted_data_of data = Py.Ok (melt data) /\
  List.length (melt data) =
    (List.length (id_rows data) * List.length (value_columns data))%nat /\
  (forall header cells i id,
     In (header, cells) (value_columns data) ->
     nth_error (id_rows data) i = Some id ->
     Pd.plain_header header = true ->
     In (mkRow (idCountry id) (idFeatures id) (idRegion id)
               (Pd.to_numeric_coerce header) (nth i cells nan))
        (melt data)) /\
  (forall header cells i id,
     In (header, cells) (value_columns data) ->
     nth_error (id_rows data) i = Some id ->
     Pd.not_a_number header = true ->
     exists row, In row (melt data) /\ Year row = None /\
                 Country row = idCountry id /\ Features row = idFeatures id /\
                 Region row = idRegion id /\ Value row = nth i cells nan).
Proof.
  intros R V; split; [apply melted_data_of_returns; exact V|].
  split; [apply length_melt; assumption|]; split.
  - intros; apply In_melt; assumption.
  - intros header cells i id Hc Hi E.
    eexists; split; [apply (In_melt data header cells i id); assumption|].
    cbn; rewrite (not_a_number_is_nan header E); auto 10.
Qed.

Lemma C3_melt_has_one_row_per_cell_witness :
  melted_data_of Scenario.indexed_table = Py.Ok (melt Scenario.indexed_table) /\
  List.length (melt Scenario.indexed_table) = (1 * 2)%nat.
Proof.
  destruct (C3_melt_has_one_row_per_cell Scenario.indexed_table eq_refl eq_refl)
    as (H1 & H2 & _).
  split; [exact H1 | exact H2].
Defined.

End MelterFacts.

(** ** The mean of one identity row's cells *)

Section MeanOfARow.
Import App Props.

Variables (a b : Z) (c g f : string).

Let id0 : IdRow := mkId (Some c) (Some f) (Some g).

Lemma values_in_range_app (l1 l2 : list Row) :
  values_in_range a b c g f (l1 ++ l2) =
  values_in_range a b c g f l1 ++ values_in_range a b c g f l2.
Proof. unfold values_in_range; rewrite !filter_app, map_app; reflexivity. Qed.

Lemma in_group_long_row (header : string) (id : IdRow) (v : float) :
  Pd.in_group key_of (c, g, f) (long_row header (id, v)) = true <-> id = id0.
Proof.
  rewrite in_group_triple; unfold has_triple, id0; destruct id as [ic ifs ir]; cbn.
  split; [intros (-> & -> & ->); reflexivity | intros [= -> -> ->]; auto].
Qed.

Lemma values_column_outside (ids : list IdRow) (col : string * list float) :
  in_range a b (Pd.to_numeric_coerce (fst col)) = false ->
  values_in_range a b c g f (column_rows ids col) = [].
Proof.
  intros H; unfold values_in_range, column_rows.
  induction (combine ids (snd col)) as [|iv l IH]; cbn; [reflexivity|].
  rewrite H; exact IH.
Qed.

Lemma values_column_inside (ids : list IdRow) (col : string * list float) :
  in_range a b (Pd.to_numeric_coerce (fst col)) = true ->
  values_in_range a b c g f (column_rows ids col) =
  map Value (filter (Pd.in_group key_of (c, g, f)) (column_rows ids col)).
Proof.
  intros H; unfold values_in_range; do 2 f_equal.
  unfold column_rows.
  induction (combine ids (snd col)) as [|iv l IH]; cbn; [reflexivity|].
  rewrite H, IH; reflexivity.
Qed.

Lemma values_of_other_rows (header : string) (ids : list IdRow) (cells : list float) :
  (forall id, In id ids -> id <> id0) ->
  map Value (filter (Pd.in_group key_of (c, g, f))
                    (map (long_row header) (combine ids cells))) = [].
Proof.
  revert cells; induction ids as [|id ids IH]; intros [|v cells] H; cbn; try reflexivity.
  destruct (Pd.in_group key_of (c, g, f) (long_row header (id, v))) eqn:E.
  - apply in_group_long_row in E; exfalso; apply (H id); [left; reflexivity | exact E].
  - apply IH; intros; apply H; right; assumption.
Qed.

(** In a column, the triple's values are the one cell of its identity row. *)
Lemma values_of_the_row (header : string) (before after : list IdRow)
      (cells : list float) :
  (forall id, In id (before ++ after) -> id <> id0) ->
  List.length cells = List.length (before ++ id0 :: after) ->
  map Value (filter (Pd.in_group key_of (c, g, f))
                    (map (long_row header) (combine (before ++ id0 :: after) cells))) =
  [nth (List.length before) cells nan].
Proof.
  revert cells; induction before as [|id before IH]; intros [|v cells] H L;
    cbn in L; try discriminate; cbn [app combine map filter List.length nth].
  - assert (E : Pd.in_group key_of (c, g, f) (long_row header (id0, v)) = true)
      by (apply in_group_long_row; reflexivity).
    rewrite E; cbn [map]; f_equal.
    apply values_of_other_rows; intros; apply H; assumption.
  - destruct (Pd.in_group key_of (c, g, f) (long_row header (id, v))) eqn:E.
    + apply in_group_long_row in E; exfalso; apply (H id); [left; reflexivity | exact E].
    + apply IH; [intros; apply H; right; assumption | congruence].
Qed.

Lemma values_of_outside_columns (ids : list IdRow) (cols : list (string * list float)) :
  (forall col, In col cols -> in_range a b (Pd.to_numeric_coerce (fst col)) = false) ->
  values_in_range a b c g f (flat_map (column_rows ids) cols) = [].
Proof.
  induction cols as [|col cols IH]; intros H; cbn [flat_map]; [reflexivity|].
  rewrite values_in_range_app, values_column_outside, IH; auto.
  - intros; apply H; right; assumption.
  - apply H; left; reflexivity.
Qed.

End MeanOfARow.

Section FranceScenario.
Import App Props.

Lemma nth_error_middle {A} (before after : list A) (x : A) :
  nth_error (before ++ x :: after) (List.length before) = Some x.
Proof. induction before; cbn; auto. Qed.

(** The scenario table itself: one identity row, the columns 2020 and 2021. *)
Example france_table_mean :
  grouped_df (recompute (startup Scenario.france_table) (2020, 2021)) =
  [mkAgg "France" "Europe" "imports" 15%float].
Proof. reflexivity. Qed.

(** The two cells of the France row, in either order of their columns. *)
Lemma france_cells_mean (before after : list IdRow)
      (cols1 cols2 cols3 : list (string * list float)) (c1 c2 : string * list float) :
  let data :=
    mkWide (before ++ Scenario.france_row :: after)
           (cols1 ++ c1 :: cols2 ++ c2 :: cols3) in
  rectangular data = true ->
  (forall id, In id (before ++ after) -> id <> Scenario.france_row) ->
  (forall col, In col (cols1 ++ cols2 ++ cols3) ->
               Pd.plain_header (fst col) = true /\
               in_range 2020 2021 (Pd.to_numeric_coerce (fst col)) = false) ->
  (fst c1 = "2020"%string /\ fst c2 = "2021"%string /\
   nth (List.length before) (snd c1) nan = 10%float /\
   nth (List.length before) (snd c2) nan = 20%float) \/
  (fst c1 = "2021"%string /\ fst c2 = "2020"%string /\
   nth (List.length before) (snd c1) nan = 20%float /\
   nth (List.length before) (snd c2) nan = 10%float) ->
  Pd.mean (values_in_range 2020 2021 "France" "Europe" "imports" (melt data)) = 15%float /\
  exists row, In row (melt data) /\
              has_triple "France" "Europe" "imports" row /\
              in_range 2020 2021 (Year row) = true.
Proof.
  intros data R Others Outside Cells.
  destruct c1 as [h1 v1], c2 as [h2 v2]; cbn [fst snd] in Cells.
  assert (In1 : In (h1, v1) (value_columns data))
    by (cbn; apply in_or_app; right; left; reflexivity).
  assert (In2 : In (h2, v2) (value_columns data))
    by (cbn; apply in_or_app; right; right; apply in_or_app; right; left; reflexivity).
  assert (L1 := rectangular_column data _ R In1).
  assert (L2 := rectangular_column data _ R In2).
  cbn [snd id_rows data] in L1, L2.
  assert (V : values_in_range 2020 2021 "France" "Europe" "imports" (melt data) =
              [nth (List.length before) v1 nan; nth (List.length before) v2 nan]).
  { rewrite melt_by_columns; cbn [value_columns id_rows data].
    rewrite flat_map_app; cbn [flat_map]; rewrite flat_map_app; cbn [flat_map].
    rewrite !values_in_range_app.
    rewrite !values_of_outside_columns
      by (intros col Hc; apply Outside; rewrite !in_app_iff; auto).
    rewrite !values_column_inside
      by (destruct Cells as [(-> & -> & _)|(-> & -> & _)]; reflexivity).
    unfold column_rows; cbn [fst snd].
    rewrite !(values_of_the_row "France" "Europe" "imports") by assumption.
    reflexivity. }
  split.
  - rewrite V; destruct Cells as [(_ & _ & -> & ->)|(_ & _ & -> & ->)]; reflexivity.
  - eexists; split; [|split].
    + apply (In_melt data h1 v1 (List.length before) Scenario.france_row);
        [assumption | assumption | apply nth_error_middle].
    + repeat split.
    + destruct Cells as [(-> & _)|(-> & _)]; reflexivity.
Qed.

(** C6: the aggregate carries, for each triple it lists, the mean of the
    non-missing values of the triple's rows in the selected years (the mean
    as pandas takes it: their compensated sum over their count).  So in a
    wide table that loads and holds the row (France, imports, Europe) once,
    among any other rows, with 10 in its column 2020 and 20 in its column
    2021, among any other columns whose headers are plain and lie outside
    2020..2021, selecting the years 2020..2021 puts the row (France,
    Europe, imports, 15.0) in the aggregate, and every row the aggregate
    holds for that triple has the value 15.0. *)
Theorem C6_france_imports_mean_is_15 :
  (forall g a b agg,
     In agg (grouped_df (recompute g (a, b))) ->
     gValue agg =
       Pd.mean (values_in_range a b (gCountry agg) (gRegion agg) (gFeatures agg)
                                (melted_data g))) /\
  (forall (before after : list IdRow) (cols1 cols2 cols3 : list (string * list float))
          (c1 c2 : string * list float),
     let data :=
       mkWide (before ++ Scenario.france_row :: after)
              (cols1 ++ c1 :: cols2 ++ c2 :: cols3) in
     rectangular data = true ->
     has_value_header data = false ->
     (forall id, In id (before ++ after) -> id <> Scenario.france_row) ->
     (forall col, In col (cols1 ++ cols2 ++ cols3) ->
                  Pd.plain_header (fst col) = true /\
                  in_range 2020 2021 (Pd.to_numeric_coerce (fst col)) = false) ->
     (fst c1 = "2020"%string /\ fst c2 = "2021"%string /\
      nth (List.length before) (snd c1) nan = 10%float /\
      nth (List.length before) (snd c2) nan = 20%float) \/
     (fst c1 = "2021"%string /\ fst c2 = "2020"%string /\
      nth (List.length before) (snd c1) nan = 20%float /\
      nth (List.length before) (snd c2) nan = 10%float) ->
     module_body data = Py.Ok (startup data) /\
     In (mkAgg "France" "Europe" "imports" 15%float)
        (grouped_df (recompute (startup data) (2020, 2021))) /\
     (forall agg, In agg (grouped_df (recompute (startup data) (2020, 2021))) ->
        gCountry agg = "France"%string -> gRegion agg = "Europe"%string ->
        gFeatures agg = "imports"%string ->
        gValue agg = 15%float)).
Proof.
  split.
  - intros g a b [c r f v] H; cbn [gCountry gRegion gFeatures gValue].
    apply In_recompute in H as [_ ->]; reflexivity.
  - intros before after cols1 cols2 cols3 c1 c2 data R V Others Outside Cells.
    destruct (france_cells_mean before after cols1 cols2 cols3 c1 c2
                R Others Outside Cells) as [M Row].
    fold data in M, Row.
    split; [apply module_body_returns; exact V|]; split.
    + apply In_recompute; split; [exact Row | symmetry; exact M].
    + intros [c' r' f' v] H Hc Hr Hf; cbn in Hc, Hr, Hf; subst; cbn.
      apply In_recompute in H as [_ ->]; exact M.
Qed.

Lemma C6_france_imports_mean_is_15_witness :
  In (mkAgg "France" "Europe" "imports" 15%float)
     (grouped_df (recompute (startup Scenario.europe_table) (2020, 2021))).
Proof.
  refine (proj1 (proj2 (proj2 C6_france_imports_mean_is_15
           [mkId (Some "Austria") (Some "imports") (Some "Europe")]
           [mkId (Some "France") (Some "exports") (Some "Europe")]
           [("2019"%string, [1; 2; 3]%float)] [] []
           ("2020"%string, [4; 10; nan]%float) ("2021"%string, [nan; 20; 6]%float)
           eq_refl eq_refl _ _ _))).
  - intros id [<-|[<-|[]]]; discriminate.
  - intros col [<-|[]]; split; reflexivity.
  - left; repeat split.
Defined.

End FranceScenario.

(** ** The three country charts *)

Section CountrySelectors.
Import App Props.

Lemma all_false_mask_and (m1 m2 : list bool) :
  (forall x, In x m1 -> x = false) -> forall x, In x (Pd.mask_and m1 m2) -> x = false.
Proof.
  revert m2; induction m1 as [|h m1 IH]; intros m2 H x; cbn.
  - rewrite in_map_iff; intros (? & <- & _); reflexivity.
  - destruct m2 as [|h2 m2]; cbn; intros [<-|Hx].
    + reflexivity.
    + apply (IH []); [intros; apply H; right; assumption | assumption].
    + rewrite (H h) by (left; reflexivity); reflexivity.
    + apply (IH m2); [intros; apply H; right; assumption | assumption].
Qed.

Lemma select_all_false {A} (rows : list A) (mask : list bool) :
  (forall x, In x mask -> x = false) -> Pd.select rows mask = [].
Proof.
  revert mask; induction rows as [|r rows IH]; intros [|h mask] H; cbn; try reflexivity.
  rewrite (H h) by (left; reflexivity); apply IH; intros; apply H; right; assumption.
Qed.

(** Masks taken from the frame that is filtered select like [filter]. *)
Lemma select_same_frame {A} (p q s : A -> bool) (rows : list A) :
  Pd.select rows (Pd.mask_and (Pd.mask_and (map p rows) (map q rows)) (map s rows)) =
  filter (fun r => p r && q r && s r) rows.
Proof.
  induction rows as [|r rows IH]; cbn; [reflexivity|].
  rewrite IH; reflexivity.
Qed.

(** Called on [melted_data] itself, as [update_country_graphs] does, the
    shared filter keeps the rows of the country with one of the features, a
    selected year and a value. *)
Lemma country_rows_of_melted_data (g : Globals) (country : string)
      (features : list string) :
  country_rows g (melted_data g) country features =
  filter (fun r => Pd.notna (Value r))
    (filter (fun r => Pd.str_eq (Country r) country
                      && Pd.isin_str (Features r) features
                      && Pd.isin_year (Year r) (years_to_average g))
            (melted_data g)).
Proof. unfold country_rows; rewrite select_same_frame; reflexivity. Qed.

Lemma country_rows_without_match (g : Globals) (df : list Row) (country : string)
      (features : list string) :
  (forall r, In r df -> Country r <> Some country) ->
  country_rows g df country features = [].
Proof.
  intros H; unfold country_rows.
  rewrite select_all_false; [reflexivity|].
  do 2 apply all_false_mask_and.
  intros x Hx; apply in_map_iff in Hx as (r & <- & Hr).
  specialize (H r Hr); unfold Pd.str_eq.
  destruct (Country r) as [c|]; [|reflexivity].
  apply String.eqb_neq; congruence.
Qed.

(** C7, as stated, fails: in the long table of [Scenario.blank_table] two
    rows have the empty string as their Country, and with the country
    parameter empty the bar chart receives the first, the line chart the
    second and the pie chart both. *)
Lemma C7_empty_country_can_match_rows :
  let g := startup Scenario.blank_table in
  create_barchart g (melted_data g) "" =
    [mkRow (Some "") (Some "imports") (Some "Europe") (Some 2020) 3%float] /\
  create_dotplot g (melted_data g) "" =
    [mkRow (Some "") (Some "net generation") (Some "Europe") (Some 2020) 5%float] /\
  create_piechart g (melted_data g) "" = melted_data g.
Proof. repeat split. Qed.

(** C7, amended: for every long table and year set, each of the three
    country charts receives an empty dataset, and none fails, when the
    country parameter matches no row; the empty string is such a parameter
    as long as no row has an empty Country. *)
Theorem C7_selectors_empty_without_match (g : Globals) (df : list Row)
        (country : string) :
  (forall r, In r df -> Country r <> Some country) ->
  create_barchart g df country = [] /\
  create_dotplot g df country = [] /\
  create_piechart g df country = [].
Proof.
  intros H; unfold create_barchart, create_dotplot, create_piechart.
  rewrite !country_rows_without_match by assumption; auto.
Qed.

Lemma C7_selectors_empty_without_match_witness :
  let g := startup Scenario.europe_table in
  create_barchart g (melted_data g) "" = [] /\
  create_dotplot g (melted_data g) "" = [] /\
  create_piechart g (melted_data g) "" = [].
Proof.
  apply (C7_selectors_empty_without_match
           (startup Scenario.europe_table)
           (melted_data (startup Scenario.europe_table)) "").
  intros r Hr; cbn in Hr.
  repeat (destruct Hr as [<-|Hr]; [discriminate|]); destruct Hr.
Defined.

End CountrySelectors.

(** ** The treemap callback *)

Section TreemapCallback.
Import App Props.

Lemma str_eq_true (cell : option string) (s : string) :
  Pd.str_eq cell s = true <-> cell = Some s.
Proof.
  destruct cell as [c|]; cbn; [|split; discriminate].
  rewrite String.eqb_eq; split; congruence.
Qed.

Lemma contains_vocabulary (g : Globals) (s : string) :
  Pd.contains (country_vocabulary g) (Some s) = true <-> known_country g s.
Proof.
  unfold Pd.contains, country_vocabulary, known_country.
  rewrite existsb_exists; split.
  - intros (cell & H & E); apply str_eq_true in E; subst.
    exact (proj1 (In_unique _ ostr_eqb_eq _ _) H).
  - intros H; exists (Some s); split; [|apply str_eq_true; reflexivity].
    exact (proj2 (In_unique _ ostr_eqb_eq _ _) H).
Qed.

Lemma contains_unknown (g : Globals) (s : string) :
  ~ known_country g s -> Pd.contains (country_vocabulary g) (Some s) = false.
Proof.
  intros H; destruct (Pd.contains (country_vocabulary g) (Some s)) eqn:E;
    [apply contains_vocabulary in E; contradiction | reflexivity].
Qed.

Lemma melted_data_after (triggered_id : TriggeredId) (g : Globals)
    (selected_value : option string) (selected_range : Z * Z) :
  melted_data (globals_after triggered_id g selected_value selected_range) =
  melted_data g.
Proof. destruct triggered_id; reflexivity. Qed.

Lemma update_treemap_unfold (triggered_id : TriggeredId) (g : Globals)
    (searched selected_value : option string) (selected_range : Z * Z) :
  update_treemap triggered_id g searched selected_value selected_range =
  (tree <- searched_treemap
             (globals_after triggered_id g selected_value selected_range) searched ;;
   Py.Ok (globals_after triggered_id g selected_value selected_range,
          (tree, year_range_text selected_range,
           display_none, display_none, display_none, ""))).
Proof. reflexivity. Qed.

(** The search is ignored when the box is empty or names no country. *)
Lemma searched_treemap_fallback (g : Globals) (searched : option string) :
  Pd.contains (country_vocabulary g) searched = false ->
  searched_treemap g searched =
  Py.Ok (create_treemap (grouped_df g) (treemap_value g)).
Proof. intros H; unfold searched_treemap; rewrite H; reflexivity. Qed.

(** A known country is looked up under its title-cased name. *)
Lemma searched_treemap_known (g : Globals) (s : string) :
  known_country g s ->
  searched_treemap g (Some s) =
  Py.Ok (filter (fun r => String.eqb (gCountry r) (Py.title s)
                          && feature_is (treemap_value g) r)
                (grouped_df g)).
Proof.
  intros H; apply contains_vocabulary in H.
  unfold searched_treemap; rewrite H; cbn; unfold create_treemap.
  f_equal; induction (grouped_df g) as [|r l IH]; cbn; [reflexivity|].
  destruct (String.eqb (gCountry r) (Py.title s)); cbn; rewrite IH; [|reflexivity].
  destruct (feature_is (treemap_value g) r); reflexivity.
Qed.

(** [update_treemap] always returns; the three styles it returns hide the
    country charts and the status text it returns is empty. *)
Lemma update_treemap_returns (triggered_id : TriggeredId) (g : Globals)
    (searched selected_value : option string) (selected_range : Z * Z) :
  exists tree,
    update_treemap triggered_id g searched selected_value selected_range =
    Py.Ok (globals_after triggered_id g selected_value selected_range,
           (tree, year_range_text selected_range,
            display_none, display_none, display_none, "")).
Proof.
  rewrite update_treemap_unfold.
  set (g' := globals_after _ _ _ _); unfold searched_treemap.
  destruct (Pd.contains (country_vocabulary g') searched) eqn:E.
  - destruct searched as [s|]; [|discriminate]; cbn; eauto.
  - cbn; eauto.
Qed.

Lemma update_treemap_fallback (triggered_id : TriggeredId) (g : Globals)
    (searched selected_value : option string) (selected_range : Z * Z) :
  Pd.contains (country_vocabulary g) searched = false ->
  update_treemap triggered_id g searched selected_value selected_range =
  Py.Ok (globals_after triggered_id g selected_value selected_range,
         (create_treemap
            (grouped_df (globals_after triggered_id g selected_value selected_range))
            (treemap_value (globals_after triggered_id g selected_value selected_range)),
          year_range_text selected_range,
          display_none, display_none, display_none, "")).
Proof.
  intros H; rewrite update_treemap_unfold, searched_treemap_fallback; [reflexivity|].
  unfold country_vocabulary; rewrite melted_data_after; exact H.
Qed.

(** C5: a search string that is not a country of the long table gives the
    same result as the empty search box ([None], the value of the cleared
    dropdown), whatever triggered the callback: the treemap of the whole
    aggregate, all countries, for the current feature.  The empty string
    gives that result too, unless a Country cell is itself empty. *)
Theorem C5_unknown_search_falls_back (triggered_id : TriggeredId) (g : Globals)
    (s : string) (selected_value : option string) (selected_range : Z * Z) :
  ~ known_country g s ->
  update_treemap triggered_id g (Some s) selected_value selected_range =
    update_treemap triggered_id g None selected_value selected_range /\
  update_treemap triggered_id g (Some s) selected_value selected_range =
    Py.Ok (globals_after triggered_id g selected_value selected_range,
           (create_treemap
              (grouped_df (globals_after triggered_id g selected_value selected_range))
              (treemap_value (globals_after triggered_id g selected_value selected_range)),
            year_range_text selected_range,
            display_none, display_none, display_none, "")) /\
  (~ known_country g "" ->
   update_treemap triggered_id g (Some s) selected_value selected_range =
     update_treemap triggered_id g (Some "") selected_value selected_range).
Proof.
  intros H.
  rewrite (update_treemap_fallback triggered_id g (Some s))
    by (apply contains_unknown; exact H).
  rewrite (update_treemap_fallback triggered_id g None) by reflexivity.
  split; [reflexivity|]; split; [reflexivity|].
  intros E; rewrite (update_treemap_fallback triggered_id g (Some ""));
    [reflexivity | apply contains_unknown; exact E].
Qed.

Lemma C5_unknown_search_falls_back_witness :
  update_treemap treemap_search (startup Scenario.bosnia_table) (Some "Atlantis")
                 (Some "net consumption") (2020, 2020) =
  update_treemap treemap_search (startup Scenario.bosnia_table) None
                 (Some "net consumption") (2020, 2020).
Proof.
  refine (proj1 (C5_unknown_search_falls_back treemap_search
                   (startup Scenario.bosnia_table)
                   "Atlantis" (Some "net consumption") (2020, 2020) _)).
  unfold known_country; cbn; intros [H|[H|[]]]; discriminate.
Defined.

(** C4 at the failing input: "Bosnia and Herzegovina" is a country of the
    long table and the aggregate holds its row for the current feature, yet
    searching it returns an empty treemap, because the aggregate is filtered
    by the title-cased "Bosnia And Herzegovina". *)
Lemma C4_title_cased_search_misses_country :
  let g := startup Scenario.bosnia_table in
  known_country g "Bosnia and Herzegovina" /\
  Py.title "Bosnia and Herzegovina" = "Bosnia And Herzegovina" /\
  filter (fun r => String.eqb (gCountry r) "Bosnia and Herzegovina"
                   && feature_is (treemap_value g) r) (grouped_df g) =
    [mkAgg "Bosnia and Herzegovina" "Europe" "net consumption" 12%float] /\
  update_treemap treemap_search g (Some "Bosnia and Herzegovina")
                 (Some "net consumption") (2020, 2020) =
    Py.Ok (g, ([], "Selected Year Range: 2020 - 2020",
               display_none, display_none, display_none, "")).
Proof.
  cbv zeta; split; [|split; [|split]].
  - unfold known_country; cbn; auto.
  - reflexivity.
  - reflexivity.
  - reflexivity.
Qed.

(** X4: a search for a country whose name is ASCII text that title-casing
    leaves alone returns the aggregate's rows of exactly that country for
    the current feature. *)
Lemma search_of_title_cased_country (triggered_id : TriggeredId) (g : Globals)
    (s : string) (selected_value : option string) (selected_range : Z * Z) :
  known_country g s -> Py.is_ascii s = true -> Py.title s = s ->
  update_treemap triggered_id g (Some s) selected_value selected_range =
  Py.Ok (globals_after triggered_id g selected_value selected_range,
         (filter (fun r => String.eqb (gCountry r) s
                   && feature_is
                        (treemap_value
                           (globals_after triggered_id g selected_value selected_range)) r)
                 (grouped_df (globals_after triggered_id g selected_value selected_range)),
          year_range_text selected_range,
          display_none, display_none, display_none, "")).
Proof.
  intros K _ T; rewrite update_treemap_unfold.
  set (g' := globals_after _ _ _ _).
  rewrite searched_treemap_known, T; [reflexivity|].
  unfold known_country, g'; rewrite melted_data_after; exact K.
Qed.

End TreemapCallback.

(** ** The click callback *)

Section ClickCallback.
Import App Props.
Local Open Scope string_scope.

(** The label cannot be read exactly when ['points'] is missing, the list
    of points is empty, or the first point has no ['label']. *)
Lemma clicked_label_raises (d : ClickData) :
  (exists e, clicked_label d = Py.Raise e) <->
  points d = None \/ points d = Some [] \/
  exists p ps, points d = Some (p :: ps) /\ label p = None.
Proof.
  destruct d as [[[|[[s|]] ps]|]]; cbn; split; eauto.
  - intros [e [=]].
  - intros [[=]|[[=]|(p & ps' & [= <- <-] & [=])]].
  - intros _; right; right; eauto.
Qed.

Lemma update_country_graphs_of_label (g : Globals) (d : ClickData) (name : string) :
  clicked_label d = Py.Ok name ->
  update_country_graphs g (Some d) =
  if Pd.contains (country_vocabulary g) (Some name) then
    Py.Ok (down_arrow ++ " Statistics for selected country: " ++ name ++ " " ++ down_arrow,
           display_block, create_barchart g (melted_data g) name,
           display_block, create_dotplot g (melted_data g) name,
           display_block, create_piechart g (melted_data g) name)
  else
    Py.Ok ("Selected Region: " ++ name,
           display_none, create_barchart g (melted_data g) name,
           display_none, create_dotplot g (melted_data g) name,
           display_none, create_piechart g (melted_data g) name).
Proof.
  intros H; unfold update_country_graphs; rewrite H; cbn [Py.bind].
  destruct (Pd.contains (country_vocabulary g) (Some name)); reflexivity.
Qed.

(** C8: a click without a payload, or with a payload from which the label
    cannot be read, is answered like a click with no country: the handler
    returns (it does not raise), the status text is empty, the three country
    charts are hidden, and their datasets are those of the empty country
    name, exactly as for an absent payload. *)
Theorem C8_malformed_click_is_recovered (g : Globals)
        (selected_data : option ClickData) :
  malformed selected_data ->
  update_country_graphs g selected_data =
    Py.Ok ("", display_none, create_barchart g (melted_data g) "",
           display_none, create_dotplot g (melted_data g) "",
           display_none, create_piechart g (melted_data g) "") /\
  update_country_graphs g selected_data = update_country_graphs g None.
Proof.
  destruct selected_data as [d|]; cbn [malformed].
  - intros [e H]; unfold update_country_graphs; rewrite H; split; reflexivity.
  - intros _; split; reflexivity.
Qed.

Lemma C8_malformed_click_is_recovered_witness :
  update_country_graphs (startup Scenario.europe_table)
                        (Some Scenario.click_without_label) =
  Py.Ok ("", display_none, [], display_none, [], display_none, []).
Proof.
  apply (C8_malformed_click_is_recovered (startup Scenario.europe_table)
           (Some Scenario.click_without_label)).
  exists (Py.KeyError "label"); reflexivity.
Defined.

(** C9: a click whose label is a region of the long table and not one of
    its countries hides the three country charts (whose datasets are then
    empty) and sets the status text to "Selected Region: <name>". *)
Theorem C9_region_click_hides_charts (g : Globals) (d : ClickData) (name : string) :
  clicked_label d = Py.Ok name ->
  known_region g name ->
  ~ known_country g name ->
  update_country_graphs g (Some d) =
  Py.Ok ("Selected Region: " ++ name,
         display_none, [], display_none, [], display_none, []).
Proof.
  intros L _ N; rewrite (update_country_graphs_of_label g d name L).
  rewrite contains_unknown by assumption.
  unfold create_barchart, create_dotplot, create_piechart.
  rewrite !country_rows_without_match; [reflexivity | ..];
    intros r Hr E; apply N; unfold known_country; rewrite <- E;
    apply in_map; exact Hr.
Qed.

Lemma C9_region_click_hides_charts_witness :
  update_country_graphs (startup Scenario.europe_table)
                        (Some (Scenario.click_on "Europe")) =
  Py.Ok ("Selected Region: Europe",
         display_none, [], display_none, [], display_none, []).
Proof.
  apply (C9_region_click_hides_charts (startup Scenario.europe_table)
           (Scenario.click_on "Europe") "Europe").
  - reflexivity.
  - unfold known_region; cbn; auto.
  - unfold known_country; cbn.
    intros H; repeat (destruct H as [H|H]; [discriminate|]); destruct H.
Defined.

(** C10: a click whose label is a country of the long table shows the three
    country charts, fills them with what the three selectors give for that
    country, and sets the status text to the arrow, then
    " Statistics for selected country: <name>", then a closing arrow. *)
Theorem C10_country_click_shows_charts (g : Globals) (d : ClickData) (name : string) :
  clicked_label d = Py.Ok name ->
  known_country g name ->
  update_country_graphs g (Some d) =
  Py.Ok (down_arrow ++ " Statistics for selected country: " ++ name ++ " " ++ down_arrow,
         display_block, create_barchart g (melted_data g) name,
         display_block, create_dotplot g (melted_data g) name,
         display_block, create_piechart g (melted_data g) name).
Proof.
  intros L K; rewrite (update_country_graphs_of_label g d name L).
  apply contains_vocabulary in K; rewrite K; reflexivity.
Qed.

Lemma C10_country_click_shows_charts_witness :
  update_country_graphs (startup Scenario.europe_table)
                        (Some (Scenario.click_on "France")) =
  Py.Ok (down_arrow ++ " Statistics for selected country: France " ++ down_arrow,
         display_block,
         [mkRow (Some "France") (Some "imports") (Some "Europe") (Some 2019) 2%float;
          mkRow (Some "France") (Some "exports") (Some "Europe") (Some 2019) 3%float;
          mkRow (Some "France") (Some "imports") (Some "Europe") (Some 2020) 10%float;
          mkRow (Some "France") (Some "imports") (Some "Europe") (Some 2021) 20%float;
          mkRow (Some "France") (Some "exports") (Some "Europe") (Some 2021) 6%float],
         display_block, [],
         display_block,
         [mkRow (Some "France") (Some "imports") (Some "Europe") (Some 2019) 2%float;
          mkRow (Some "France") (Some "imports") (Some "Europe") (Some 2020) 10%float;
          mkRow (Some "France") (Some "imports") (Some "Europe") (Some 2021) 20%float]).
Proof.
  apply (C10_country_click_shows_charts (startup Scenario.europe_table)
           (Scenario.click_on "France") "France").
  - reflexivity.
  - unfold known_country; cbn; auto.
Defined.

End ClickCallback.

(** ** Transitions of the page *)

Section PageTransitions.
Import App Props.

(** C2, as stated, fails: from [Scenario.overview_page], a click on France
    shows the three country charts; choosing another feature then hides all
    three and clears the status text, while their contents stay. *)
Lemma C2_feature_change_hides_shown_charts :
  exists g1 page1 g2 page2,
    step (startup Scenario.europe_table, Scenario.overview_page)
         (treemap_clicked (Some (Scenario.click_on "France"))) = Py.Ok (g1, page1) /\
    country_barchart_style page1 = display_block /\
    country_dotplot_style page1 = display_block /\
    country_piechart_style page1 = display_block /\
    step (g1, page1)
         (inputs_changed treemap_choice None (Some "imports") (2019, 2021)) =
      Py.Ok (g2, page2) /\
    country_barchart_style page2 = display_none /\
    country_dotplot_style page2 = display_none /\
    country_piechart_style page2 = display_none /\
    test_text page1 <> test_text page2 /\
    country_barchart_figure page2 = country_barchart_figure page1 /\
    country_barchart_figure page1 <> [].
Proof.
  do 4 eexists; split; [reflexivity|]; do 3 (split; [reflexivity|]).
  split; [reflexivity|]; do 3 (split; [reflexivity|]).
  split; [discriminate|]; split; [reflexivity | discriminate].
Qed.

(** C2, amended: in every state a feature-choice change succeeds; it sets
    the selected feature, redraws the treemap for it, rewrites the
    year-range text, hides the three country charts and clears the status
    text; the long table, the selected years, the aggregate and the contents
    of the three country charts stay exactly as they were. *)
Theorem C2_feature_change_frame (g : Globals) (page : Page)
    (searched selected_value : option string) (selected_range : Z * Z) :
  exists g' page',
    step (g, page) (inputs_changed treemap_choice searched selected_value selected_range) =
      Py.Ok (g', page') /\
    treemap_value g' = selected_value /\
    melted_data g' = melted_data g /\
    years_to_average g' = years_to_average g /\
    grouped_df g' = grouped_df g /\
    searched_treemap g' searched = Py.Ok (main_treemap_figure page') /\
    year_text page' = year_range_text selected_range /\
    country_barchart_figure page' = country_barchart_figure page /\
    country_dotplot_figure page' = country_dotplot_figure page /\
    country_piechart_figure page' = country_piechart_figure page /\
    country_barchart_style page' = display_none /\
    country_dotplot_style page' = display_none /\
    country_piechart_style page' = display_none /\
    test_text page' = ""%string.
Proof.
  destruct (update_treemap_returns treemap_choice g searched selected_value
              selected_range) as [tree E].
  pose proof E as E'; rewrite update_treemap_unfold in E'.
  destruct (searched_treemap
              (globals_after treemap_choice g selected_value selected_range) searched)
    as [tree'|e] eqn:S; cbn in E'; [|discriminate].
  injection E' as ->.
  eexists; eexists; split.
  - cbn [step]; rewrite E; cbn [Py.bind]; reflexivity.
  - cbn; repeat split; exact S.
Qed.

End PageTransitions.

(** ** Further properties of the aggregate and of the callbacks *)

Section FurtherProperties.
Import App Props.

Lemma key_compare_antisym (x y : Pd.Key) :
  Pd.key_compare x y = CompOpp (Pd.key_compare y x).
Proof.
  destruct x as [[a1 a2] a3], y as [[b1 b2] b3]; cbn.
  rewrite (String.compare_antisym a1 b1), (String.compare_antisym a2 b2),
          (String.compare_antisym a3 b3).
  destruct (String.compare b1 a1), (String.compare b2 a2); reflexivity.
Qed.

Lemma key_leb_total (x y : Pd.Key) : Pd.key_leb x y = false -> Pd.key_leb y x = true.
Proof.
  unfold Pd.key_leb; rewrite (key_compare_antisym x y).
  destruct (Pd.key_compare y x); cbn; congruence.
Qed.

Lemma HdRel_insert_key (k h : Pd.Key) (l : list Pd.Key) :
  key_le h k -> HdRel key_le h l -> HdRel key_le h (Pd.insert_key k l).
Proof.
  intros Hk Hl; destruct l as [|x l]; cbn; [constructor; exact Hk|].
  destruct (Pd.key_leb k x); constructor; [exact Hk|].
  inversion Hl; assumption.
Qed.

Lemma Sorted_insert_key (k : Pd.Key) (l : list Pd.Key) :
  Sorted key_le l -> Sorted key_le (Pd.insert_key k l).
Proof.
  induction 1 as [|h l S IH Hd]; cbn; [repeat constructor|].
  destruct (Pd.key_leb k h) eqn:E.
  - constructor; [constructor; assumption | constructor; exact E].
  - constructor; [exact IH|].
    apply HdRel_insert_key; [apply key_leb_total; exact E | exact Hd].
Qed.

Lemma Sorted_sort_keys (l : list Pd.Key) : Sorted key_le (Pd.sort_keys l).
Proof.
  induction l as [|k l IH]; cbn; [constructor | apply Sorted_insert_key; exact IH].
Qed.

Lemma NoDup_insert_key (k : Pd.Key) (l : list Pd.Key) :
  ~ In k l -> NoDup l -> NoDup (Pd.insert_key k l).
Proof.
  induction l as [|h l IH]; cbn; intros N D.
  - constructor; [intros [] | constructor].
  - destruct (Pd.key_leb k h); [constructor; assumption|].
    inversion D as [|? ? Nh Dl]; subst.
    constructor; [|apply IH; [intros H; apply N; right; exact H | exact Dl]].
    rewrite In_insert_key; intros [->|H]; [apply N; left; reflexivity | contradiction].
Qed.

Lemma NoDup_sort_keys (l : list Pd.Key) : NoDup l -> NoDup (Pd.sort_keys l).
Proof.
  induction 1 as [|k l N D IH]; cbn; [constructor|].
  apply NoDup_insert_key; [rewrite In_sort_keys; exact N | exact IH].
Qed.

Lemma NoDup_unique_from {A} (eqb : A -> A -> bool)
      (eqb_eq : forall x y, eqb x y = true <-> x = y) (l seen : list A) :
  NoDup (Pd.unique_from eqb seen l).
Proof.
  revert seen; induction l as [|x l IH]; intros seen; cbn; [constructor|].
  destruct (existsb (eqb x) seen); [apply IH|].
  constructor; [|apply IH].
  rewrite (In_unique_from eqb eqb_eq); cbn; tauto.
Qed.

Lemma triples_aggregate (melted : list Row) (years : list (option Z)) :
  triples (aggregate melted years) =
  Pd.sort_keys
    (Pd.unique Pd.key_eqb
       (Pd.observed_keys key_of
          (filter (fun r => Pd.isin_year (Year r) years) melted))).
Proof.
  unfold triples, aggregate, Pd.groupby_mean; rewrite !map_map.
  rewrite <- (map_id (Pd.sort_keys _)) at 2.
  apply map_ext; intros [[c g] f]; reflexivity.
Qed.

(** X1: the aggregate holds each (Country, Region, Features) triple at most
    once, and its rows are in the ascending order of their triples: at
    startup and after every year-range selection. *)
Theorem aggregate_one_row_per_triple_in_order (data : WideTable)
        (g : Globals) (selected_range : Z * Z) :
  NoDup (triples (grouped_df (startup data))) /\
  Sorted key_le (triples (grouped_df (startup data))) /\
  NoDup (triples (grouped_df (recompute g selected_range))) /\
  Sorted key_le (triples (grouped_df (recompute g selected_range))).
Proof.
  unfold startup, recompute; cbn [grouped_df]; rewrite !triples_aggregate.
  repeat split;
    first [ apply Sorted_sort_keys
          | apply NoDup_sort_keys, (NoDup_unique_from _ key_eqb_eq) ].
Qed.

(** Both callbacks return on every input: [searched.title()] is reached
    only with a string, and the bare [except] catches what reading the label
    raises. *)
Lemma step_returns (st : State) (ev : Event) :
  exists st', step st ev = Py.Ok st'.
Proof.
  destruct st as [g page], ev as [triggered_id searched selected_value selected_range
                                 | selected_data]; cbn [step].
  - destruct (update_treemap_returns triggered_id g searched selected_value
                selected_range) as [tree ->]; cbn; eauto.
  - destruct selected_data as [d|]; [|cbn; eauto].
    destruct (clicked_label d) as [name|e] eqn:L.
    + rewrite (update_country_graphs_of_label g d name L).
      destruct (Pd.contains (country_vocabulary g) (Some name)); cbn; eauto.
    + unfold update_country_graphs; rewrite L; cbn; eauto.
Qed.

(** X2: an entry in the search box redraws the treemap only: the module-level
    state and the contents of the three country charts stay as they were. *)
Theorem search_leaves_state_and_figures (g : Globals) (page : Page)
    (searched selected_value : option string) (selected_range : Z * Z) :
  exists page',
    step (g, page) (inputs_changed treemap_search searched selected_value selected_range) =
      Py.Ok (g, page') /\
    country_barchart_figure page' = country_barchart_figure page /\
    country_dotplot_figure page' = country_dotplot_figure page /\
    country_piechart_figure page' = country_piechart_figure page.
Proof.
  cbn [step].
  destruct (update_treemap_returns treemap_search g searched selected_value
              selected_range) as [tree ->]; cbn; eauto.
Qed.

(** X3: the slider's range is read with both bounds included, and a missing
    Year is never among the selected years. *)
Theorem selected_years_are_the_inclusive_range (g : Globals) (a b : Z) (y : option Z) :
  Pd.isin_year y (years_to_average (recompute g (a, b))) = in_range a b y.
Proof. apply isin_year_range. Qed.

Lemma search_of_title_cased_country_witness :
  update_treemap treemap_search (startup Scenario.bosnia_table) (Some "France")
                 (Some "net consumption") (2020, 2020) =
  Py.Ok (startup Scenario.bosnia_table,
         ([mkAgg "France" "Europe" "net consumption" 440%float],
          "Selected Year Range: 2020 - 2020"%string,
          display_none, display_none, display_none, ""%string)).
Proof.
  apply (search_of_title_cased_country treemap_search (startup Scenario.bosnia_table)
           "France" (Some "net consumption") (2020, 2020)).
  - unfold known_country; cbn; auto.
  - reflexivity.
  - reflexivity.
Defined.

Lemma In_combine_nth_error {A B} (l : list A) (l' : list B) (x : A) (y : B) :
  In (x, y) (combine l l') ->
  exists i, nth_error l i = Some x /\ nth_error l' i = Some y.
Proof.
  revert l'; induction l as [|h l IH]; intros [|h' l']; cbn; try contradiction.
  intros [[= -> ->]|H]; [exists 0%nat; auto|].
  destruct (IH l' H) as (i & H1 & H2); exists (S i); auto.
Qed.

(** X5: the melt is a pure reshape: every row of the long table is one cell of
    the wide table, with the identity of the cell's row and, under a plain
    header, the year the header reads as. *)
Theorem melt_rows_come_from_cells (data : WideTable) (row : Row) :
  In row (melt data) ->
  exists header cells i id,
    In (header, cells) (value_columns data) /\
    nth_error (id_rows data) i = Some id /\
    nth_error cells i = Some (Value row) /\
    Country row = idCountry id /\ Features row = idFeatures id /\
    Region row = idRegion id /\
    (Pd.plain_header header = true -> Year row = Pd.to_numeric_coerce header).
Proof.
  rewrite melt_by_columns, in_flat_map.
  intros ([header cells] & Hc & H); unfold column_rows in H; cbn [fst snd] in H.
  apply in_map_iff in H as ([id v] & <- & H).
  apply In_combine_nth_error in H as (i & H1 & H2).
  exists header, cells, i, id; cbn; auto 10.
Qed.

Lemma melt_rows_come_from_cells_witness :
  exists header cells i id,
    In (header, cells) (value_columns Scenario.france_table) /\
    nth_error (id_rows Scenario.france_table) i = Some id /\
    nth_error cells i = Some 20%float /\
    Some "France" = idCountry id /\ Some "imports" = idFeatures id /\
    Some "Europe" = idRegion id /\
    (Pd.plain_header header = true -> Some 2021 = Pd.to_numeric_coerce header).
Proof.
  apply (melt_rows_come_from_cells Scenario.france_table
           (mkRow (Some "France") (Some "imports") (Some "Europe") (Some 2021) 20%float)).
  cbn; auto.
Defined.

End FurtherProperties.

(** ** What the country charts hold *)

Section CountryChartRows.
Import App Props.

Lemma isin_str_true (cell : option string) (values : list string) :
  Pd.isin_str cell values = true <-> exists f, In f values /\ cell = Some f.
Proof.
  unfold Pd.isin_str; rewrite existsb_exists.
  split; intros (f & H & E); exists f; (split; [exact H|]); apply str_eq_true; exact E.
Qed.

Lemma In_country_rows (g : Globals) (country : string) (features : list string)
      (r : Row) :
  In r (country_rows g (melted_data g) country features) <->
  In r (melted_data g) /\ chart_row g country features r.
Proof.
  rewrite country_rows_of_melted_data, !filter_In, !andb_true_iff.
  unfold chart_row; rewrite str_eq_true, isin_str_true; tauto.
Qed.

(** X6: called as the click callback calls them, the three selectors return
    exactly the rows of the long table that belong to the country, carry one
    of the chart's features, lie in a selected year and have a value: no
    missing value, no other country and no unselected year reaches a
    chart. *)
Theorem country_charts_hold_exactly_the_matching_rows (g : Globals)
        (country : string) (r : Row) :
  (In r (create_barchart g (melted_data g) country) <->
   In r (melted_data g) /\ chart_row g country ["imports"; "exports"]%string r) /\
  (In r (create_dotplot g (melted_data g) country) <->
   In r (melted_data g) /\
   chart_row g country ["net generation"; "net consumption"]%string r) /\
  (In r (create_piechart g (melted_data g) country) <->
   In r (melted_data g) /\
   chart_row g country ["imports"; "net generation"; "distribution losses"]%string r).
Proof.
  unfold create_barchart, create_dotplot, create_piechart.
  split; [|split]; apply In_country_rows.
Qed.

Lemma select_by_position {A B} (p q : A -> bool) (s : B -> bool)
      (rows : list A) (others : list B) :
  Pd.select rows (Pd.mask_and (Pd.mask_and (map p rows) (map q rows)) (map s others)) =
  map fst (filter (fun rr => p (fst rr) && q (fst rr) && s (snd rr)) (combine rows others)).
Proof.
  revert others; induction rows as [|r rows IH]; intros [|o others]; cbn;
    try reflexivity.
  - specialize (IH []); cbn in IH; rewrite IH; destruct rows; reflexivity.
  - rewrite IH; destruct (p r && q r && s o); reflexivity.
Qed.

Lemma filter_map_fst {A B} (p : A -> bool) (l : list (A * B)) :
  filter p (map fst l) = map fst (filter (fun rr => p (fst rr)) l).
Proof.
  induction l as [|x l IH]; cbn; [reflexivity|].
  destruct (p (fst x)); cbn; rewrite IH; reflexivity.
Qed.

Lemma filter_filter {A} (p q : A -> bool) (l : list A) :
  filter q (filter p l) = filter (fun x => p x && q x) l.
Proof.
  induction l as [|x l IH]; cbn; [reflexivity|].
  destruct (p x); cbn; [destruct (q x)|]; rewrite IH; reflexivity.
Qed.

Lemma country_rows_by_position (g : Globals) (df : list Row) (country : string)
      (features : list string) :
  country_rows g df country features =
  map fst (filter (chart_pair g country features) (combine df (melted_data g))).
Proof.
  unfold country_rows.
  rewrite (select_by_position
             (fun r => Pd.str_eq (Country r) country)
             (fun r => Pd.isin_str (Features r) features)
             (fun r => Pd.isin_year (Year r) (years_to_average g))).
  rewrite filter_map_fst, filter_filter; reflexivity.
Qed.

(** X7: the selectors take the year mask from the global long table and
    not from the frame they are given: on a frame with as many rows, row
    number i is kept when its own country, feature and value pass and the
    year of row number i of the global table is selected, whatever its own
    year is.  (The statement is kept to frames of equal length, on which
    the two default indexes coincide.) *)
Theorem year_mask_is_read_from_the_global_table (g : Globals) (df : list Row)
        (country : string) :
  List.length df = List.length (melted_data g) ->
  create_barchart g df country =
    map fst (filter (chart_pair g country ["imports"; "exports"]%string)
                    (combine df (melted_data g))) /\
  create_dotplot g df country =
    map fst (filter (chart_pair g country ["net generation"; "net consumption"]%string)
                    (combine df (melted_data g))) /\
  create_piechart g df country =
    map fst (filter (chart_pair g country
                       ["imports"; "net generation"; "distribution losses"]%string)
                    (combine df (melted_data g))).
Proof. intros _; repeat split; apply country_rows_by_position. Qed.

Lemma year_mask_is_read_from_the_global_table_witness :
  let g := recompute (startup Scenario.france_table) (2020, 2020) in
  create_barchart g (rev (melted_data g)) "France" =
  [mkRow (Some "France") (Some "imports") (Some "Europe") (Some 2021) 20%float].
Proof.
  cbv zeta.
  refine (proj1 (year_mask_is_read_from_the_global_table
                   (recompute (startup Scenario.france_table) (2020, 2020))
                   (rev (melted_data (recompute (startup Scenario.france_table)
                                                (2020, 2020))))
                   "France" _)).
  reflexivity.
Defined.

End CountryChartRows.

(** ** Sequences of events *)

Section EventSequences.
Import App Props.

Lemma step_keeps_charts_consistent (st st' : State) (ev : Event) :
  step st ev = Py.Ok st' ->
  charts_consistent st' /\ melted_data (fst st') = melted_data (fst st).
Proof.
  destruct st as [g page],
           ev as [triggered_id searched selected_value selected_range | selected_data];
    cbn [step].
  - destruct (update_treemap_returns triggered_id g searched selected_value
                selected_range) as [tree ->]; cbn [Py.bind].
    intros [= <-]; split; [left; repeat split | apply melted_data_after].
  - destruct selected_data as [d|].
    + destruct (clicked_label d) as [name|e] eqn:L.
      * rewrite (update_country_graphs_of_label g d name L).
        destruct (Pd.contains (country_vocabulary g) (Some name)) eqn:K;
          cbn [Py.bind]; intros [= <-]; (split; [|reflexivity]).
        -- right; exists name; apply contains_vocabulary in K.
           repeat split; assumption.
        -- left; repeat split.
      * unfold update_country_graphs; rewrite L; cbn.
        intros [= <-]; split; [left; repeat split | reflexivity].
    + cbn; intros [= <-]; split; [left; repeat split | reflexivity].
Qed.

Lemma run_returns (events : list Event) (st : State) :
  exists st', run st events = Py.Ok st'.
Proof.
  revert st; induction events as [|ev rest IH]; intros st; cbn; [eauto|].
  destruct (step_returns st ev) as [st1 ->]; cbn; apply IH.
Qed.

(** X8: every sequence of events runs to a state, and after at least one
    event the three country charts are all hidden or all shown; when shown,
    the status text names a known country and the three charts hold what the
    selectors give for that country with the years selected now: a change of
    the year range, of the feature or of the search never leaves charts on
    the page that were computed for other years.  The long table is never
    changed. *)
Theorem shown_charts_are_current (st : State) (events : list Event) :
  events <> [] ->
  exists st', run st events = Py.Ok st' /\
              charts_consistent st' /\
              melted_data (fst st') = melted_data (fst st).
Proof.
  revert st; induction events as [|ev rest IH]; intros st N; [contradiction|].
  cbn [run]; destruct (step_returns st ev) as [st1 E]; rewrite E; cbn [Py.bind].
  destruct (step_keeps_charts_consistent st st1 ev E) as [C M].
  destruct rest as [|ev' rest'].
  - exists st1; cbn; auto.
  - destruct (IH st1) as (st' & R & C' & M'); [discriminate|].
    exists st'; repeat split; [exact R | exact C' | congruence].
Qed.

Lemma shown_charts_are_current_witness :
  exists st',
    run (startup Scenario.europe_table, Scenario.overview_page)
        [treemap_clicked (Some (Scenario.click_on "France"));
         inputs_changed year_slider None (Some "imports") (2020, 2020);
         treemap_clicked (Some (Scenario.click_on "France"))] = Py.Ok st' /\
    charts_consistent st' /\
    melted_data (fst st') = melt Scenario.europe_table.
Proof.
  apply (shown_charts_are_current
           (startup Scenario.europe_table, Scenario.overview_page)
           [treemap_clicked (Some (Scenario.click_on "France"));
            inputs_changed year_slider None (Some "imports") (2020, 2020);
            treemap_clicked (Some (Scenario.click_on "France"))]).
  discriminate.
Defined.

End EventSequences.

(** ** The aggregate at startup and under other ranges *)

Section AggregateRanges.
Import App Props.

Lemma year_eqb_eq (x y : option Z) : Pd.year_eqb x y = true <-> x = y.
Proof.
  destruct x as [a|], y as [b|]; cbn; try (split; congruence).
  rewrite Z.eqb_eq; split; congruence.
Qed.

Lemma filter_all {A} (p : A -> bool) (l : list A) :
  (forall x, In x l -> p x = true) -> filter p l = l.
Proof.
  induction l as [|x l IH]; intros H; cbn; [reflexivity|].
  rewrite (H x) by (left; reflexivity); f_equal; apply IH; intros; apply H; right; assumption.
Qed.

Lemma filter_none {A} (p : A -> bool) (l : list A) :
  (forall x, In x l -> p x = false) -> filter p l = [].
Proof.
  induction l as [|x l IH]; intros H; cbn; [reflexivity|].
  rewrite (H x) by (left; reflexivity); apply IH; intros; apply H; right; assumption.
Qed.

Lemma startup_years_select_every_row (melted : list Row) :
  filter (fun r => Pd.isin_year (Year r) (year_values melted)) melted = melted.
Proof.
  apply filter_all; intros r H.
  apply (existsb_eqb_In _ year_eqb_eq), (In_unique _ year_eqb_eq), in_map; exact H.
Qed.

Lemma In_startup_aggregate (data : WideTable) (c g f : string) (v : float) :
  In (mkAgg c g f v) (grouped_df (startup data)) <->
  (exists row, In row (melt data) /\ has_triple c g f row) /\
  v = Pd.mean (map Value (filter (Pd.in_group key_of (c, g, f)) (melt data))).
Proof.
  unfold startup; cbn [grouped_df].
  rewrite In_aggregate, startup_years_select_every_row.
  split; intros [(row & H1 & H2) ->]; (split; [|reflexivity]).
  - exists row; tauto.
  - exists row; split; [exact H1|]; split; [|exact H2].
    apply (existsb_eqb_In _ year_eqb_eq), (In_unique _ year_eqb_eq), in_map; exact H1.
Qed.

(** X9: at startup the years to average are all the year values of the long
    table, a missing year among them, so the first aggregate is taken over
    every row: it lists a triple exactly when the long table has a row for
    it, also when all of its rows come from columns whose header is no year,
    and the mean covers all of the triple's values. *)
Theorem startup_aggregate_covers_every_row (data : WideTable) (c g f : string) :
  (listed c g f (grouped_df (startup data)) <->
   exists row, In row (melt data) /\ has_triple c g f row) /\
  (forall v, In (mkAgg c g f v) (grouped_df (startup data)) ->
     v = Pd.mean (map Value (filter (Pd.in_group key_of (c, g, f)) (melt data)))).
Proof.
  split; [split|].
  - intros ([c' g' f' v] & H & Hc & Hg & Hf); cbn in Hc, Hg, Hf; subst.
    apply In_startup_aggregate in H; tauto.
  - intros H; eexists (mkAgg c g f _); cbn; split; [|auto].
    apply In_startup_aggregate; split; [exact H | reflexivity].
  - intros v H; apply In_startup_aggregate in H; tauto.
Qed.

(** X10: widening the year range never removes a group from the aggregate,
    and a range whose upper bound lies below its lower bound selects no
    year and gives an empty aggregate. *)
Theorem wider_range_keeps_groups (g : Globals) (a b a' b' : Z) (c r f : string) :
  a' <= a -> b <= b' ->
  (listed c r f (grouped_df (recompute g (a, b))) ->
   listed c r f (grouped_df (recompute g (a', b')))) /\
  (b < a -> grouped_df (recompute g (a, b)) = []).
Proof.
  intros La Lb; split.
  - intros ([c' r' f' v] & H & Hc & Hr & Hf); cbn in Hc, Hr, Hf; subst.
    apply In_recompute in H as [(row & H1 & H2 & H3) _].
    eexists (mkAgg c r f _); cbn; split; [|auto].
    apply In_recompute; split; [|reflexivity].
    exists row; split; [exact H1|]; split; [exact H2|].
    destruct (Year row) as [y|]; cbn in *; [|discriminate].
    apply andb_true_iff in H3 as [H3 H4]; apply Z.leb_le in H3, H4.
    apply andb_true_iff; split; apply Z.leb_le; lia.
  - intros Lt; unfold recompute; cbn [grouped_df fst snd].
    unfold aggregate; rewrite filter_selected_years, filter_none; [reflexivity|].
    intros row _; destruct (Year row) as [y|]; cbn; [|reflexivity].
    apply andb_false_iff; rewrite !Z.leb_gt; lia.
Qed.

Lemma wider_range_keeps_groups_witness :
  listed "France" "Europe" "imports"
         (grouped_df (recompute (startup Scenario.europe_table) (2019, 2021))).
Proof.
  assert (La : 2019 <= 2020) by lia.
  assert (Lb : 2020 <= 2021) by lia.
  apply (proj1 (wider_range_keeps_groups (startup Scenario.europe_table)
                  2020 2020 2019 2021 "France" "Europe" "imports" La Lb)).
  exists (mkAgg "France" "Europe" "imports" 10%float).
  split; [vm_compute; auto | repeat split].
Defined.

End AggregateRanges.

(** ** Normalisation of the identity columns *)

Section Normalisation.
Import App Props.

Lemma lstrip_starts (s : string) : starts_with_space (Py.lstrip s) = false.
Proof.
  induction s as [|c s IH]; cbn; [reflexivity|].
  destruct (Py.is_space c) eqn:E; [exact IH | cbn; exact E].
Qed.

Lemma lstrip_fixed (s : string) : starts_with_space s = false -> Py.lstrip s = s.
Proof. destruct s as [|c s]; cbn; [reflexivity | intros ->; reflexivity]. Qed.

Lemma rstrip_ends (s : string) : ends_with_space (Py.rstrip s) = false.
Proof.
  induction s as [|c s IH]; cbn; [reflexivity|].
  destruct (Py.rstrip s) as [|c' s'] eqn:E.
  - destruct (Py.is_space c) eqn:S; cbn; [reflexivity | exact S].
  - exact IH.
Qed.

Lemma rstrip_fixed (s : string) : ends_with_space s = false -> Py.rstrip s = s.
Proof.
  induction s as [|c s IH]; cbn; [reflexivity|].
  destruct s as [|c' s'].
  - cbn; intros ->; reflexivity.
  - intros H; rewrite (IH H); reflexivity.
Qed.

Lemma rstrip_keeps_start (s : string) :
  starts_with_space s = false -> starts_with_space (Py.rstrip s) = false.
Proof.
  destruct s as [|c s]; cbn; [reflexivity|]; intros H.
  destruct (Py.rstrip s); [rewrite H|]; cbn; exact H.
Qed.

Lemma strip_trimmed (s : string) :
  starts_with_space (Py.strip s) = false /\ ends_with_space (Py.strip s) = false.
Proof.
  unfold Py.strip; split; [apply rstrip_keeps_start, lstrip_starts | apply rstrip_ends].
Qed.

Lemma strip_fixed (s : string) :
  starts_with_space s = false -> ends_with_space s = false -> Py.strip s = s.
Proof. intros H1 H2; unfold Py.strip; rewrite (lstrip_fixed s H1); apply rstrip_fixed, H2. Qed.

Lemma strip_strip (s : string) : Py.strip (Py.strip s) = Py.strip s.
Proof. apply strip_fixed; apply strip_trimmed. Qed.

Lemma strip_id_strip_id (id : IdRow) : strip_id (strip_id id) = strip_id id.
Proof.
  destruct id as [[c|] [f|] [r|]]; unfold strip_id; cbn; rewrite ?strip_strip; reflexivity.
Qed.

Lemma normalized_ids_trimmed (data : WideTable) (id : IdRow) :
  In id (id_rows (normalize data)) ->
  trimmed (idCountry id) /\ trimmed (idFeatures id) /\ trimmed (idRegion id).
Proof.
  unfold normalize; cbn [id_rows]; intros H.
  apply in_map_iff in H as ([[c|] [f|] [r|]] & <- & _); cbn;
    repeat split; try apply strip_trimmed.
Qed.

(** X11: after normalisation no Country, Features or Region cell, of the
    wide table and of the long table melted from it, starts or ends with
    white space (a cell of white space only has become the empty string, a
    missing cell stays missing); the value columns, the number of rows and
    the shape of the table are untouched, and normalising twice is the same
    as normalising once. *)
Theorem normalize_trims_identity_cells (data : WideTable) :
  (forall id, In id (id_rows (normalize data)) ->
     trimmed (idCountry id) /\ trimmed (idFeatures id) /\ trimmed (idRegion id)) /\
  (forall row, In row (melt (normalize data)) ->
     trimmed (Country row) /\ trimmed (Features row) /\ trimmed (Region row)) /\
  List.length (id_rows (normalize data)) = List.length (id_rows data) /\
  value_columns (normalize data) = value_columns data /\
  rectangular (normalize data) = rectangular data /\
  normalize (normalize data) = normalize data.
Proof.
  split; [apply normalized_ids_trimmed|]; split; [|repeat split].
  - intros row H; rewrite melt_by_columns in H.
    apply in_flat_map in H as (col & _ & H).
    unfold column_rows in H; apply in_map_iff in H as ([id v] & <- & H).
    apply in_combine_l in H; cbn; apply (normalized_ids_trimmed data); exact H.
  - unfold normalize; cbn [id_rows]; apply length_map.
  - unfold rectangular, normalize; cbn [id_rows value_columns].
    rewrite length_map; reflexivity.
  - unfold normalize; cbn [id_rows value_columns].
    f_equal; rewrite map_map; apply map_ext, strip_id_strip_id.
Qed.

End Normalisation.

(** ** The search box *)

Section SearchBox.
Import App Props.

Lemma string_compare_trans (a b c : string) :
  String.compare a b <> Gt -> String.compare b c <> Gt -> String.compare a c <> Gt.
Proof.
  revert b c; induction a as [|x a IH]; intros [|y b] [|z c]; cbn; try congruence.
  unfold Ascii.compare.
  destruct (N.compare_spec (N_of_ascii x) (N_of_ascii y)),
           (N.compare_spec (N_of_ascii y) (N_of_ascii z)),
           (N.compare_spec (N_of_ascii x) (N_of_ascii z));
    try congruence; try (exfalso; lia).
  apply IH.
Qed.

Lemma key_le_country (x y : Pd.Key) : key_le x y -> str_le (fst (fst x)) (fst (fst y)).
Proof.
  destruct x as [[a1 a2] a3], y as [[b1 b2] b3]; unfold key_le, Pd.key_leb, str_le; cbn.
  destruct (String.compare a1 b1); congruence.
Qed.

Lemma StronglySorted_sort_keys (l : list Pd.Key) :
  StronglySorted (fun x y => str_le (fst (fst x)) (fst (fst y))) (Pd.sort_keys l).
Proof.
  apply Sorted_StronglySorted.
  - intros x y z; apply string_compare_trans.
  - induction (Sorted_sort_keys l) as [|h t S IH Hd]; constructor; [exact IH|].
    destruct Hd; constructor; apply key_le_country; assumption.
Qed.

Lemma StronglySorted_map {A B} (R : B -> B -> Prop) (f : A -> B) (l : list A) :
  StronglySorted (fun x y => R (f x) (f y)) l -> StronglySorted R (map f l).
Proof.
  induction 1 as [|h t S IH F]; cbn; constructor; [exact IH|].
  apply Forall_map; exact F.
Qed.

Lemma StronglySorted_unique_from (l seen : list string) :
  StronglySorted str_le l ->
  StronglySorted (fun a b => String.ltb a b = true) (Pd.unique_from String.eqb seen l).
Proof.
  intros S; revert seen; induction S as [|h t S IH F]; intros seen; cbn; [constructor|].
  destruct (existsb (String.eqb h) seen); [apply IH|].
  constructor; [apply IH|].
  apply Forall_forall; intros x Hx.
  apply (In_unique_from _ String.eqb_eq) in Hx as [Hx N].
  rewrite Forall_forall in F; specialize (F x Hx).
  unfold String.ltb, str_le in *.
  destruct (String.compare h x) eqn:E; [|reflexivity|congruence].
  apply String.compare_eq_iff in E; subst; exfalso; apply N; left; reflexivity.
Qed.

Lemma countries_of_aggregate (melted : list Row) (years : list (option Z)) :
  map gCountry (aggregate melted years) =
  map (fun k => fst (fst k)) (triples (aggregate melted years)).
Proof. unfold triples; rewrite map_map; reflexivity. Qed.

(** X12: the search box, filled once from the aggregate of the startup,
    offers the countries in strictly ascending order, none twice, each with
    its name as label and as value; a country is offered exactly when the
    long table has a row of it with a Region and a Features cell, and every
    offered value is a known country, so choosing it never takes the
    fallback of an unknown search. *)
Theorem search_box_offers_the_countries (data : WideTable) :
  StronglySorted (fun a b => String.ltb a b = true)
                 (map option_value (search_options (startup data))) /\
  (forall o, In o (search_options (startup data)) ->
     option_label o = option_value o /\
     known_country (startup data) (option_value o) /\
     Pd.contains (country_vocabulary (startup data)) (Some (option_value o)) = true) /\
  (forall c, In (mkOption c c) (search_options (startup data)) <->
     exists row, In row (melt data) /\ Country row = Some c /\
                 Region row <> None /\ Features row <> None).
Proof.
  assert (Offered : forall c, In c (Pd.unique String.eqb
                                      (map gCountry (grouped_df (startup data)))) <->
                    exists row, In row (melt data) /\ Country row = Some c /\
                                Region row <> None /\ Features row <> None).
  { intros c; rewrite (In_unique _ String.eqb_eq), in_map_iff; split.
    - intros ([c' g f v] & <- & H); cbn.
      apply In_startup_aggregate in H as [(row & H1 & H2 & H3 & H4) _].
      exists row; rewrite H3, H4; repeat split; [assumption.. | discriminate | discriminate].
    - intros (row & H1 & H2 & H3 & H4).
      destruct (Region row) as [g|] eqn:Eg; [|contradiction].
      destruct (Features row) as [f|] eqn:Ef; [|contradiction].
      eexists (mkAgg c g f _); split; [reflexivity|].
      apply In_startup_aggregate; split; [|reflexivity].
      exists row; repeat split; assumption. }
  split; [|split].
  - unfold search_options; rewrite map_map; cbn [option_value]; rewrite map_id.
    apply StronglySorted_unique_from.
    unfold startup; cbn [grouped_df]; rewrite countries_of_aggregate, triples_aggregate.
    apply StronglySorted_map, StronglySorted_sort_keys.
  - intros o H; unfold search_options in H.
    apply in_map_iff in H as (c & <- & H); cbn [option_label option_value].
    apply Offered in H as (row & H1 & H2 & _).
    assert (K : known_country (startup data) c)
      by (unfold known_country; rewrite <- H2; apply in_map; exact H1).
    repeat split; [exact K | apply contains_vocabulary; exact K].
  - intros c; rewrite <- Offered; unfold search_options; rewrite in_map_iff; split.
    + intros (c' & [= <- _] & H); exact H.
    + intros H; exists c; auto.
Qed.

End SearchBox.

(** ** What the treemap holds *)

Section TreemapRows.
Import App Props.

Lemma feature_is_true (treemap_val : option string) (r : AggregateRow) :
  feature_is treemap_val r = true <-> treemap_val = Some (gFeatures r).
Proof.
  destruct treemap_val as [f|]; cbn; [|split; discriminate].
  rewrite String.eqb_eq; split; congruence.
Qed.

Lemma In_create_treemap (df : list AggregateRow) (treemap_val : option string)
      (r : AggregateRow) :
  In r (create_treemap df treemap_val) <->
  In r df /\ treemap_val = Some (gFeatures r).
Proof. unfold create_treemap; rewrite filter_In, feature_is_true; reflexivity. Qed.

(** X13: whatever triggers it and whatever is searched, the treemap returned
    by [update_treemap] holds only rows of the current aggregate whose
    feature is the current feature; with the feature dropdown cleared it is
    empty; and when the search names a known country in ASCII text every
    row it holds has the title-cased name as its Country. *)
Theorem treemap_holds_rows_of_the_feature (triggered_id : TriggeredId) (g : Globals)
    (searched selected_value : option string) (selected_range : Z * Z) :
  exists tree,
    update_treemap triggered_id g searched selected_value selected_range =
      Py.Ok (globals_after triggered_id g selected_value selected_range,
             (tree, year_range_text selected_range,
              display_none, display_none, display_none, ""%string)) /\
    (forall r, In r tree ->
       In r (grouped_df (globals_after triggered_id g selected_value selected_range)) /\
       treemap_value (globals_after triggered_id g selected_value selected_range) =
         Some (gFeatures r)) /\
    (treemap_value (globals_after triggered_id g selected_value selected_range) = None ->
     tree = []) /\
    (forall s, searched = Some s -> known_country g s -> Py.is_ascii s = true ->
       forall r, In r tree -> gCountry r = Py.title s).
Proof.
  rewrite update_treemap_unfold.
  set (g' := globals_after triggered_id g selected_value selected_range).
  assert (V : country_vocabulary g' = country_vocabulary g)
    by (unfold country_vocabulary, g'; rewrite melted_data_after; reflexivity).
  unfold searched_treemap; rewrite V.
  destruct (Pd.contains (country_vocabulary g) searched) eqn:E.
  - destruct searched as [s|]; [|discriminate]; cbn [searched_title Py.bind].
    eexists; split; [reflexivity|]; split; [|split].
    + intros r H; apply In_create_treemap in H as [H F].
      apply filter_In in H as [H _]; auto.
    + intros N; rewrite N; unfold create_treemap, feature_is.
      apply filter_none; reflexivity.
    + intros s' [= <-] _ _ r H; apply In_create_treemap in H as [H _].
      apply filter_In in H as [_ H]; apply String.eqb_eq in H; exact H.
  - cbn [Py.bind]; eexists; split; [reflexivity|]; split; [|split].
    + intros r H; apply In_create_treemap in H; exact H.
    + intros N; rewrite N; unfold create_treemap, feature_is.
      apply filter_none; reflexivity.
    + intros s -> K _; apply contains_vocabulary in K; congruence.
Qed.

End TreemapRows.

(** ** From the wide table to the aggregate *)

Section WideToAggregate.
Import App Props.

Lemma In_melt_cell (data : WideTable) (row : Row) :
  In row (melt data) ->
  exists header cells i id,
    In (header, cells) (value_columns data) /\
    nth_error (id_rows data) i = Some id /\
    row = mkRow (idCountry id) (idFeatures id) (idRegion id)
                (Pd.to_numeric_coerce header) (Value row).
Proof.
  rewrite melt_by_columns, in_flat_map.
  intros ([header cells] & Hc & H); unfold column_rows in H; cbn [fst snd] in H.
  apply in_map_iff in H as ([id v] & <- & H).
  apply In_combine_nth_error in H as (i & H1 & _).
  exists header, cells, i, id; cbn; auto.
Qed.

(** X14: from the wide table to the aggregate: for a rectangular wide table
    with plain headers, none of them [Value], the module body returns, and
    after the years a..b are selected the aggregate lists a triple exactly
    when the wide table has an identity row with these Country, Features
    and Region cells and a value column whose header reads as a year from
    a to b. *)
Theorem wide_table_decides_the_groups (data : WideTable) (a b : Z) (c g f : string) :
  rectangular data = true ->
  has_value_header data = false ->
  forallb Pd.plain_header (map fst (value_columns data)) = true ->
  module_body data = Py.Ok (startup data) /\
  (listed c g f (grouped_df (recompute (startup data) (a, b))) <->
   exists header cells i y,
     In (header, cells) (value_columns data) /\
     nth_error (id_rows data) i = Some (mkId (Some c) (Some f) (Some g)) /\
     Pd.to_numeric_coerce header = Some y /\ a <= y <= b).
Proof.
  intros R V _; split; [apply module_body_returns; exact V|]; split.
  - intros ([c' g' f' v] & H & Hc & Hg & Hf); cbn in Hc, Hg, Hf; subst.
    apply In_recompute in H as [(row & H1 & (T1 & T2 & T3) & H3) _].
    cbn [melted_data startup] in H1.
    apply In_melt_cell in H1 as (header & cells & i & id & Hcol & Hid & E).
    rewrite E in T1, T2, T3, H3; cbn in T1, T2, T3, H3.
    destruct (Pd.to_numeric_coerce header) as [y|] eqn:P; [|discriminate].
    cbn in H3; apply andb_true_iff in H3 as [L1 L2]; apply Z.leb_le in L1, L2.
    exists header, cells, i, y; destruct id as [ic ifs ir]; cbn in *; subst; auto.
  - intros (header & cells & i & y & Hcol & Hid & P & L).
    eexists (mkAgg c g f _); split; [|cbn; auto].
    apply In_recompute; split; [|reflexivity].
    eexists; split; [apply (In_melt data header cells i _ R Hcol Hid)|].
    rewrite P; split; [unfold has_triple; cbn; auto|].
    cbn; apply andb_true_iff; split; apply Z.leb_le; lia.
Qed.

Lemma wide_table_decides_the_groups_witness :
  listed "France" "Europe" "exports"
         (grouped_df (recompute (startup Scenario.europe_table) (2020, 2020))).
Proof.
  apply (proj2 (proj2 (wide_table_decides_the_groups Scenario.europe_table 2020 2020
                         "France" "Europe" "exports" eq_refl eq_refl eq_refl))).
  exists "2020"%string, [4; 10; nan]%float, 2%nat, 2020.
  cbn; repeat split; auto; lia.
Defined.

End WideToAggregate.

(** ** Year headers *)

Section YearHeaders.
Import App Props.

Lemma digits_from_acc (d : Decimal.uint) (acc : positive) :
  Pd.digits_from (Z.pos acc) (NilEmpty.string_of_uint d) =
  Some (Z.pos (Pos.of_uint_acc d acc)).
Proof.
  revert acc; induction d as [|d IH|d IH|d IH|d IH|d IH|d IH|d IH|d IH|d IH|d IH];
    intros acc; cbn [NilEmpty.string_of_uint Pd.digits_from Pos.of_uint_acc];
    [reflexivity|..];
    match goal with
    | |- context [Pd.digit_of ?c] =>
        let v := eval vm_compute in (Pd.digit_of c) in
        change (Pd.digit_of c) with v; cbv iota
    end;
    rewrite <- IH; f_equal; lia.
Qed.

Lemma digits_from_zero (d : Decimal.uint) :
  Pd.digits_from 0 (NilEmpty.string_of_uint d) = Some (Z.of_N (Pos.of_uint d)).
Proof.
  induction d as [|d IH|d IH|d IH|d IH|d IH|d IH|d IH|d IH|d IH|d IH];
    cbn [NilEmpty.string_of_uint Pd.digits_from Pos.of_uint];
    [reflexivity|..];
    match goal with
    | |- context [Pd.digit_of ?c] =>
        let v := eval vm_compute in (Pd.digit_of c) in
        change (Pd.digit_of c) with v; cbv iota
    end;
    [exact IH | cbn [Z.of_N]; rewrite <- digits_from_acc; f_equal..].
Qed.

Lemma unsigned_literal_of_positive (p : positive) :
  Pd.unsigned_literal (NilZero.string_of_uint (Pos.to_uint p)) = Some (Z.pos p).
Proof.
  pose proof (DecimalPos.Unsigned.of_to p) as E.
  pose proof (DecimalPos.Unsigned.to_uint_nonnil p) as N.
  pose proof (digits_from_zero (Pos.to_uint p)) as D; rewrite E in D.
  destruct (Pos.to_uint p); [contradiction|..]; exact D.
Qed.

Lemma to_numeric_of_str (y : Z) : Pd.to_numeric_coerce (Py.str_of_int y) = Some y.
Proof.
  destruct y as [|p|p]; unfold Py.str_of_int; cbn [Z.to_int NilZero.string_of_int].
  - reflexivity.
  - pose proof (unsigned_literal_of_positive p) as U.
    pose proof (DecimalPos.Unsigned.to_uint_nonnil p) as N.
    destruct (Pos.to_uint p); [contradiction|..]; exact U.
  - cbn [Pd.to_numeric_coerce]; rewrite unsigned_literal_of_positive; reflexivity.
Qed.

(** X15: a column whose header is the decimal numeral of an integer y, as
    Python prints it, gives long-table rows of the year y: the header reads
    back as y, every cell of the column is a row with Year y, and the
    column is averaged exactly when y lies in the selected range. *)
Theorem numeral_header_is_its_year (y : Z) :
  Pd.to_numeric_coerce (Py.str_of_int y) = Some y /\
  (forall data cells i id,
     rectangular data = true ->
     In (Py.str_of_int y, cells) (value_columns data) ->
     nth_error (id_rows data) i = Some id ->
     In (mkRow (idCountry id) (idFeatures id) (idRegion id) (Some y) (nth i cells nan))
        (melt data)) /\
  (forall g a b row,
     Year row = Pd.to_numeric_coerce (Py.str_of_int y) ->
     Pd.isin_year (Year row) (years_to_average (recompute g (a, b))) = true <->
     a <= y <= b).
Proof.
  split; [apply to_numeric_of_str|]; split.
  - intros data cells i id R Hc Hi.
    rewrite <- (to_numeric_of_str y); apply In_melt; assumption.
  - intros g a b row ->; rewrite to_numeric_of_str.
    unfold recompute; cbn [years_to_average fst snd]; rewrite isin_year_range; cbn.
    rewrite andb_true_iff, !Z.leb_le; reflexivity.
Qed.

End YearHeaders.

(** ** Missing values and the selected years, end to end *)

Section MissingValuesAndYears.
Import App Props.

Lemma mean_skips_missing (before after : list float) (v : float) :
  Pd.notna v = false -> Pd.mean (before ++ v :: after) = Pd.mean (before ++ after).
Proof.
  intros H; unfold Pd.mean; rewrite !filter_app; cbn [filter]; rewrite H; reflexivity.
Qed.

Lemma values_in_range_insert (a b : Z) (c g f : string) (l1 l2 : list Row) (r : Row) :
  Pd.notna (Value r) = false ->
  Pd.mean (values_in_range a b c g f (l1 ++ r :: l2)) =
  Pd.mean (values_in_range a b c g f (l1 ++ l2)).
Proof.
  intros H; unfold values_in_range; rewrite !filter_app, !map_app; cbn [filter].
  destruct (in_range a b (Year r)); cbn [filter]; [|reflexivity].
  destruct (Pd.in_group key_of (c, g, f) r); cbn [map]; [|reflexivity].
  apply mean_skips_missing; exact H.
Qed.

(** X16: a row without a value never changes a mean: when a long table
    gets one more row whose Value is missing, every triple listed before is
    still listed, and every triple listed in both aggregates has the same
    mean in both, for every year range. *)
Theorem missing_value_changes_no_mean (g1 g2 : Globals) (l1 l2 : list Row) (r : Row)
        (a b : Z) (c g f : string) :
  melted_data g1 = l1 ++ l2 ->
  melted_data g2 = l1 ++ r :: l2 ->
  Pd.notna (Value r) = false ->
  (listed c g f (grouped_df (recompute g1 (a, b))) ->
   listed c g f (grouped_df (recompute g2 (a, b)))) /\
  (forall v1 v2,
     In (mkAgg c g f v1) (grouped_df (recompute g1 (a, b))) ->
     In (mkAgg c g f v2) (grouped_df (recompute g2 (a, b))) ->
     v1 = v2).
Proof.
  intros E1 E2 M; split.
  - intros ([c' g' f' v] & H & Hc & Hg & Hf); cbn in Hc, Hg, Hf; subst.
    apply In_recompute in H as [(row & H1 & H2 & H3) _].
    eexists (mkAgg c g f _); split; [|cbn; auto].
    apply In_recompute; split; [|reflexivity].
    exists row; split; [|auto].
    rewrite E1 in H1; rewrite E2; apply in_app_or in H1 as [H1|H1];
      apply in_or_app; [left | right; right]; exact H1.
  - intros v1 v2 H1 H2.
    apply In_recompute in H1 as [_ ->]; apply In_recompute in H2 as [_ ->].
    rewrite E1, E2; symmetry; apply values_in_range_insert; exact M.
Qed.

Lemma missing_value_changes_no_mean_witness :
  listed "France" "Europe" "imports"
         (grouped_df (recompute
                        (mkGlobals
                           (mkRow (Some "France") (Some "imports") (Some "Europe")
                                  (Some 2020) nan :: melt Scenario.france_table)
                           [] [] None)
                        (2020, 2021))).
Proof.
  apply (proj1 (missing_value_changes_no_mean
                  (mkGlobals (melt Scenario.france_table) [] [] None)
                  (mkGlobals
                     (mkRow (Some "France") (Some "imports") (Some "Europe")
                            (Some 2020) nan :: melt Scenario.france_table)
                     [] [] None)
                  [] (melt Scenario.france_table)
                  (mkRow (Some "France") (Some "imports") (Some "Europe") (Some 2020) nan)
                  2020 2021 "France" "Europe" "imports" eq_refl eq_refl eq_refl)).
  exists (mkAgg "France" "Europe" "imports" 15%float).
  split; [vm_compute; auto | repeat split].
Defined.

(** X17: after the years a..b are selected, a click on a known country
    shows three charts in which every row belongs to that country, has a
    value and has its Year in a..b. *)
Theorem clicked_charts_follow_the_slider (g : Globals) (a b : Z) (d : ClickData)
        (name : string) :
  clicked_label d = Py.Ok name ->
  known_country g name ->
  exists text bar dot pie,
    update_country_graphs (recompute g (a, b)) (Some d) =
      Py.Ok (text, display_block, bar, display_block, dot, display_block, pie) /\
    (forall r, In r bar \/ In r dot \/ In r pie ->
       In r (melted_data g) /\ Country r = Some name /\
       in_range a b (Year r) = true /\ Pd.notna (Value r) = true).
Proof.
  intros L K.
  rewrite (update_country_graphs_of_label (recompute g (a, b)) d name L).
  assert (K' : Pd.contains (country_vocabulary (recompute g (a, b))) (Some name) = true)
    by (apply contains_vocabulary; exact K).
  rewrite K'; do 4 eexists; split; [reflexivity|].
  unfold create_barchart, create_dotplot, create_piechart.
  intros r [H|[H|H]]; apply In_country_rows in H as [H1 (H2 & _ & H3 & H4)];
    cbn [melted_data years_to_average recompute fst snd] in *;
    rewrite isin_year_range in H3; auto.
Qed.

Lemma clicked_charts_follow_the_slider_witness :
  exists text bar dot pie,
    update_country_graphs (recompute (startup Scenario.europe_table) (2020, 2020))
                          (Some (Scenario.click_on "France")) =
      Py.Ok (text, display_block, bar, display_block, dot, display_block, pie) /\
    (forall r, In r bar \/ In r dot \/ In r pie ->
       In r (melted_data (startup Scenario.europe_table)) /\
       Country r = Some "France"%string /\
       in_range 2020 2020 (Year r) = true /\ Pd.notna (Value r) = true).
Proof.
  apply (clicked_charts_follow_the_slider (startup Scenario.europe_table) 2020 2020
           (Scenario.click_on "France") "France").
  - reflexivity.
  - unfold known_country; cbn; auto.
Defined.

End MissingValuesAndYears.
